(** * ReportPortal client ([package rp]): entity lifecycle and request encoding

    A shallow embedding of [rp/test-item.go] and of the client file that
    accompanies it ([NewClient], [CheckConnect], [GetDashboard]).

    - Go strings are byte strings: [string].
    - Pointers ([*TestItem], [*Client], [*Launch]) are locations in a store of
      finite maps; [nil] is [None].  A method that mutates its receiver
      rewrites the receiver's cell, so aliases (a child's [Parent]) observe it.
    - A Go function that may return an error, or panic on a nil dereference,
      is a computation in the monad [M]: it threads the store and the log of
      HTTP calls handed to [doRequest], and ends in [Returned] or [Panicked].
    - The collaborators the file calls but does not define ([doRequest],
      [time.Now], [url.Parse] inside [http.NewRequest], the random multipart
      boundary) are fields of an environment [Env]. *)

From stdpp Require Import base strings gmap list pretty.

Open Scope string_scope.
Open Scope Z_scope.

Set Warnings "-register-all".

(** ** The [strings] and [strconv] functions used by [NewClient] *)

Module strings.

(** [s[:n]] *)
Fixpoint slice_to (n : nat) (s : string) : string :=
  match n, s with
  | S n', String c s' => String c (slice_to n' s')
  | _, _ => ""
  end.

(** [s[n:]] *)
Fixpoint slice_from (n : nat) (s : string) : string :=
  match n, s with
  | S n', String _ s' => slice_from n' s'
  | _, _ => s
  end.

(** [len(s) >= len(prefix) && s[:len(prefix)] == prefix] *)
Definition HasPrefix (s prefix : string) : bool :=
  (String.length prefix <=? String.length s)%nat
  && String.eqb (slice_to (String.length prefix) s) prefix.

(** [len(s) >= len(suffix) && s[len(s)-len(suffix):] == suffix] *)
Definition HasSuffix (s suffix : string) : bool :=
  (String.length suffix <=? String.length s)%nat
  && String.eqb (slice_from (String.length s - String.length suffix) s) suffix.

(** [if HasSuffix(s, suffix) { return s[:len(s)-len(suffix)] }; return s] *)
Definition TrimSuffix (s suffix : string) : string :=
  if HasSuffix s suffix
  then slice_to (String.length s - String.length suffix) s
  else s.

(** [Index(s, substr) >= 0]: some position of [s] starts with [substr]. *)
Fixpoint Contains (s substr : string) : bool :=
  HasPrefix s substr ||
  match s with
  | "" => false
  | String _ s' => Contains s' substr
  end.

End strings.

Module strconv.
(** Decimal rendering of an [int], with a leading [-] when negative. *)
Definition Itoa (i : Z) : string := pretty i.
End strconv.

(** ** Client *)

Record Client := {
  Endpoint : string;
  Token : string;
  Project : string;
}.

(** [NewClient]; the [strings.Builder] is the string written so far. *)
Definition NewClient (endpoint project token : string) (apiVersion : Z) : Client :=
  let endpoint := strings.TrimSuffix endpoint "/" in
  let esb := "" in
  let esb :=
    if negb (strings.HasPrefix endpoint "https://")
       && negb (strings.HasPrefix endpoint "http://")
    then esb +:+ "https://" else esb in
  let esb := esb +:+ endpoint in
  let apiVersion := if apiVersion <? 1 then 1 else apiVersion in
  let esb :=
    if negb (strings.Contains endpoint "/api/v")
    then (esb +:+ "/api/v") +:+ strconv.Itoa apiVersion
    else esb in
  {| Endpoint := esb; Project := project; Token := token |}.

(** ** JSON documents

    [encoding/json] is represented by the documents it reads and writes.
    Numbers are the integers, which is all this client writes; the decoders
    below treat every number alike. *)

Inductive json :=
| JNull
| JBool (b : bool)
| JNumber (n : Z)
| JString (s : string)
| JArray (elems : list json)
| JObject (members : list (string * json)).

(** A Go slice: [nil] or a (possibly empty) sequence. *)
Definition slice (A : Type) := option (list A).

(** *** Strings written by [json.Marshal]

    The encoder walks the bytes of a Go string with
    [utf8.DecodeRuneInString]: a byte that does not start a well-formed rune
    is written as U+FFFD and the walk moves on by one byte; a well-formed
    rune is written as it is and the walk moves on by its size. *)

Definition byte_in (lo hi : nat) (c : Ascii.ascii) : bool :=
  ((lo <=? Ascii.nat_of_ascii c)%nat && (Ascii.nat_of_ascii c <=? hi)%nat)%bool.

(** For a leading byte of a multi-byte rune: the size of the rune and the
    range accepted for its second byte ([first] and [acceptRanges] of
    [unicode/utf8]). *)
Definition utf8_first (c : Ascii.ascii) : option (nat * (nat * nat)) :=
  if byte_in 194 223 c then Some (2%nat, (128%nat, 191%nat))
  else if byte_in 224 224 c then Some (3%nat, (160%nat, 191%nat))
  else if byte_in 225 236 c then Some (3%nat, (128%nat, 191%nat))
  else if byte_in 237 237 c then Some (3%nat, (128%nat, 159%nat))
  else if byte_in 238 239 c then Some (3%nat, (128%nat, 191%nat))
  else if byte_in 240 240 c then Some (4%nat, (144%nat, 191%nat))
  else if byte_in 241 243 c then Some (4%nat, (128%nat, 191%nat))
  else if byte_in 244 244 c then Some (4%nat, (128%nat, 143%nat))
  else None.

(** [utf8.DecodeRuneInString(s)] for a non-empty [s]: the size of the rune
    decoded, or [None] for the result [(RuneError, 1)] of an ill-formed or
    truncated sequence. *)
Definition DecodeRune_size (s : string) : option nat :=
  match s with
  | "" => None
  | String s0 rest =>
      if byte_in 0 127 s0 then Some 1%nat
      else
        match utf8_first s0 with
        | None => None
        | Some (sz, (lo, hi)) =>
            match rest with
            | "" => None
            | String s1 rest1 =>
                if negb (byte_in lo hi s1) then None
                else if (sz <=? 2)%nat then Some 2%nat
                else
                  match rest1 with
                  | "" => None
                  | String s2 rest2 =>
                      if negb (byte_in 128 191 s2) then None
                      else if (sz <=? 3)%nat then Some 3%nat
                      else
                        match rest2 with
                        | "" => None
                        | String s3 _ =>
                            if negb (byte_in 128 191 s3) then None
                            else Some 4%nat
                        end
                  end
            end
        end
  end.

(** The UTF-8 encoding of U+FFFD: [EF BF BD]. *)
Definition replacement_rune : string :=
  String (Ascii.ascii_of_nat 239)
    (String (Ascii.ascii_of_nat 191) (String (Ascii.ascii_of_nat 189) "")).

(** The walk; [pending] counts the bytes of the current rune still to be
    copied. *)
Fixpoint coerce_from (pending : nat) (s : string) : string :=
  match s with
  | "" => ""
  | String c rest =>
      match pending with
      | S k => String c (coerce_from k rest)
      | O =>
          match DecodeRune_size s with
          | Some size => String c (coerce_from (size - 1) rest)
          | None => replacement_rune +:+ coerce_from 0 rest
          end
      end
  end.

(** The string a JSON string written by [json.Marshal] stands for: the Go
    string coerced to valid UTF-8. *)
Definition coerce_utf8 (s : string) : string := coerce_from 0 s.
Arguments coerce_utf8 : simpl never.

(** [json.Marshal] of a [string], an [int64] and a [[]string]: a nil slice is
    written as [null]. *)
Definition marshal_string (s : string) : json := JString (coerce_utf8 s).
Definition marshal_int64 (n : Z) : json := JNumber n.
Definition marshal_strings (ss : slice string) : json :=
  match ss with
  | None => JNull
  | Some l => JArray (marshal_string <$> l)
  end.

(** ** Errors ([github.com/pkg/errors]) *)

Inductive fmtarg :=
| ArgString (s : string)
| ArgURL (u : string)
| ArgValue (v : json).

Inductive error :=
| External (msg : string)
| Wrapf (cause : error) (format : string) (args : list fmtarg)
| Errorf (format : string) (args : list fmtarg).

(** ** Time *)

(** [time.Time] as seconds since the Unix epoch and nanoseconds within the
    second. *)
Record Time := {
  unix_sec : Z;
  unix_nsec : Z;
}.

(** The zero [time.Time]: January 1, year 1, 00:00:00 UTC. *)
Definition zero_Time : Time := {| unix_sec := -62135596800; unix_nsec := 0 |}.

Definition wrap_int64 (z : Z) : Z := (z + 2 ^ 63) mod 2 ^ 64 - 2 ^ 63.

(** Modelled from the spec: [toTimestamp], the helper that turns a
    [time.Time] into the wire timestamp, is not part of the two files; the
    design rule is seconds x 1000 + nanoseconds / 1e6, an [int64]. *)
Definition toTimestamp (t : Time) : Z :=
  wrap_int64 (unix_sec t * 1000 + unix_nsec t ÷ 1000000).

(** ** HTTP requests and responses *)

Abbreviation MIMEHeader := (gmap string (list string)).

(** [h.Set(key, value)]; the keys used here are already canonical. *)
Definition Header_Set (key value : string) (h : MIMEHeader) : MIMEHeader :=
  <[key := [value]]> h.

(** A run of bytes: the encoding [json.Marshal] gives a document, or bytes
    taken as they are. *)
Inductive bytes :=
| JSONBytes (doc : json)
| RawBytes (data : string).

(** An [io.Reader] read to exhaustion: the bytes it yields, then end of file
    or an error. *)
Record Reader := {
  reader_data : bytes;
  reader_err : option error;
}.

(** [bytes.NewReader(b)] *)
Definition bytes_NewReader (b : bytes) : Reader :=
  {| reader_data := b; reader_err := None |}.

(** One part of a multipart body: its header and the chunks written to it. *)
Record Part := {
  part_header : MIMEHeader;
  part_body : list bytes;
}.

(** A buffer filled by a [multipart.Writer]: the parts begun so far, in
    order, and whether the closing delimiter has been written. *)
Record Multipart := {
  boundary : string;
  parts : list Part;
  closed : bool;
}.

Inductive RequestBody :=
| NoBody
| BufferBody (content : bytes)
| MultipartBody (buf : Multipart).

Record Request := {
  Method : string;
  URL : string;
  Header : MIMEHeader;
  Body : RequestBody;
}.

Definition MethodGet := "GET".
Definition MethodPost := "POST".
Definition MethodPut := "PUT".
Definition StatusOK := 200.
Definition StatusCreated := 201.

(** The body of a response as [json.Decoder] sees it: the first JSON value of
    the stream, or the error met before one was read. *)
Inductive ResponseBody :=
| Unreadable (err : error)
| Document (doc : json).

Record Response := {
  StatusCode : Z;
  Status : string;
  RespBody : ResponseBody;
}.

(** ** Entities *)

Abbreviation loc := positive.

(** A pointer: [nil] or the location of a cell of the store. *)
Abbreviation ptr := (option loc).

(** Modelled from the spec: the [Launch] type is declared outside the two
    files; they use its identifier ([launch.Id]) and the client it reports
    through ([launch.client]), which is what the data model lists. *)
Record Launch := {
  Launch_Id : string;
  Launch_client : ptr;
}.

Record KeyValue := {
  Key : string;
  Value : string;
}.

Record TestItem := {
  Id : string;
  Name : string;
  Description : string;
  Parent : ptr;
  Parameters : slice KeyValue;
  Retry : bool;
  StartTime : Time;
  Tags : slice string;
  Type_ : string;
  client : ptr;
  launch : ptr;
}.

Definition TestItemSuite := "SUITE".
Definition TestItemStory := "STORY".
Definition TestItemTest := "TEST".
Definition TestItemScenario := "SCENARIO".
Definition TestItemStep := "STEP".
Definition TestItemBeforeClass := "BEFORE_CLASS".
Definition TestItemBeforeGroups := "BEFORE_GROUPS".
Definition TestItemBeforeMethod := "BEFORE_METHOD".
Definition TestItemBeforeSuite := "BEFORE_SUITE".
Definition TestItemBeforeTest := "BEFORE_TEST".
Definition TestItemAfterClass := "AFTER_CLASS".
Definition TestItemAfterGroups := "AFTER_GROUPS".
Definition TestItemAfterMethod := "AFTER_METHOD".
Definition TestItemAfterSuite := "AFTER_SUITE".
Definition TestItemAfterTest := "AFTER_TEST".

(** [ti.Id = id] *)
Definition set_Id (id : string) (ti : TestItem) : TestItem :=
  {| Id := id; Name := Name ti; Description := Description ti;
     Parent := Parent ti; Parameters := Parameters ti; Retry := Retry ti;
     StartTime := StartTime ti; Tags := Tags ti; Type_ := Type_ ti;
     client := client ti; launch := launch ti |}.

(** [ti.Description = description; ti.Tags = tags] *)
Definition set_Description_Tags (description : string) (tags : slice string)
    (ti : TestItem) : TestItem :=
  {| Id := Id ti; Name := Name ti; Description := description;
     Parent := Parent ti; Parameters := Parameters ti; Retry := Retry ti;
     StartTime := StartTime ti; Tags := tags; Type_ := Type_ ti;
     client := client ti; launch := launch ti |}.

Record Attachment := {
  Attachment_Name : string;
  Data : option Reader;
  MimeType : string;
}.

Record HistoryEntry := {
  Field : string;
  NewValue : string;
  OldValue : string;
}.

Record ActivityEntry := {
  ActionType : string;
  ActivityId : string;
  History : slice HistoryEntry;
  LastModifiedDate : Time;
  LoggedObjectRef : string;
  ObjectName : string;
  ObjectType : string;
  ProjectRef : string;
  UserRef : string;
}.

Record Page := {
  Number : Z;
  Size : Z;
  TotalElements : Z;
  TotalPages : Z;
}.

Record Activity := {
  Content : slice ActivityEntry;
  Activity_Page : Page;
}.

Record Widget := {
  Widget_Id : string;
  Widget_Size : slice Z;
  Position : slice Z;
}.

Record DashboardEntry := {
  Owner : string;
  Share : bool;
  Dashboard_Id : string;
  Dashboard_Name : string;
  Widgets : slice (option Widget);
}.

Definition Dashboard := slice DashboardEntry.

(** ** The environment of a call *)

Record Env := {
  (** [time.Now()] *)
  time_Now : Time;
  (** [url.Parse] inside [http.NewRequest]: the error for a string it
      rejects. *)
  url_Parse : string -> option error;
  (** the boundary [multipart.NewWriter] draws *)
  randomBoundary : string;
  (** what [doRequest(req, token)] returns: a response that may be nil and an
      error that may be nil *)
  doRequest_returns : Request -> string -> option Response * option error;
}.

(** ** Store, outcomes and the monad of operations *)

Record State := {
  items : gmap loc TestItem;
  launches : gmap loc Launch;
  clients : gmap loc Client;
  (** the calls made to [doRequest], oldest first *)
  calls : list (Request * string);
}.

Inductive Outcome (A : Type) :=
| Returned (a : A)
| Panicked.
Arguments Returned {A} a.
Arguments Panicked {A}.

Definition M (A : Type) : Type := State -> Outcome A * State.

#[global] Instance M_ret : MRet M := fun A a σ => (Returned a, σ).

#[global] Instance M_bind : MBind M := fun A B f m σ =>
  match m σ with
  | (Returned a, σ') => f a σ'
  | (Panicked, σ') => (Panicked, σ')
  end.

(** A nil pointer dereference. *)
Definition panic {A} : M A := fun σ => (Panicked, σ).

Definition deref {A} (cells : State -> gmap loc A) (p : ptr) : M A := fun σ =>
  match p with
  | None => (Panicked, σ)
  | Some l =>
      match cells σ !! l with
      | Some v => (Returned v, σ)
      | None => (Panicked, σ)
      end
  end.

Definition store_item (l : loc) (ti : TestItem) : M unit := fun σ =>
  (Returned (),
   {| items := <[l := ti]> (items σ); launches := launches σ;
      clients := clients σ; calls := calls σ |}).

(** [&TestItem{...}]: a cell no pointer refers to yet. *)
Definition alloc_item (ti : TestItem) : M ptr := fun σ =>
  let l := fresh (dom (items σ)) in
  (Returned (Some l),
   {| items := <[l := ti]> (items σ); launches := launches σ;
      clients := clients σ; calls := calls σ |}).

(** [resp.Body] of a possibly nil [resp]. *)
Definition deref_resp (resp : option Response) : M Response :=
  match resp with
  | Some r => mret r
  | None => panic
  end.

(** [doRequest(req, token)]: the call is recorded, the environment answers. *)
Definition doRequest (E : Env) (req : Request) (token : string)
    : M (option Response * option error) := fun σ =>
  (Returned (doRequest_returns E req token),
   {| items := items σ; launches := launches σ; clients := clients σ;
      calls := calls σ ++ [(req, token)] |}).

Definition update_item (p : ptr) (f : TestItem -> TestItem) : M unit :=
  cur ← deref items p;
  match p with
  | Some l => store_item l (f cur)
  | None => panic
  end.

(** ** Library calls *)

(** [json.Marshal]: none of the values marshalled here can fail to encode. *)
Definition json_Marshal (doc : json) : bytes + error := inl (JSONBytes doc).

(** [http.NewRequest(method, url, body)] with one of the method constants:
    it fails when the URL does not parse. *)
Definition http_NewRequest (E : Env) (method url : string) (body : RequestBody)
    : Request + error :=
  match url_Parse E url with
  | Some err => inr err
  | None => inl {| Method := method; URL := url; Header := ∅; Body := body |}
  end.

(** [req.Header.Set(key, value)] *)
Definition req_Header_Set (key value : string) (req : Request) : Request :=
  {| Method := Method req; URL := URL req;
     Header := Header_Set key value (Header req); Body := Body req |}.

(** *** Decoding [struct { Id string `json:"id"` }] *)

Definition upper (c : Ascii.ascii) : Ascii.ascii :=
  let n := Ascii.nat_of_ascii c in
  if ((97 <=? n)%nat && (n <=? 122)%nat)%bool
  then Ascii.ascii_of_nat (n - 32) else c.

(** Case folding of an object key; the two non-ASCII letters the decoder
    also folds become [K] and [S] and so never meet [ID]. *)
Fixpoint foldName (s : string) : string :=
  match s with
  | "" => ""
  | String c s' => String (upper c) (foldName s')
  end.

(** An object key selects the field tagged [name] when it is that name, or
    equal to it after folding. *)
Definition key_selects (name key : string) : bool :=
  String.eqb key name || String.eqb (foldName key) (foldName name).

Definition UnmarshalTypeError (value : string) : error :=
  External ("json: cannot unmarshal " +:+ value +:+ " into Go value").

(** The decoder keeps the first error and goes on. *)
Definition saveError (saved : option error) (err : error) : option error :=
  match saved with
  | Some _ => saved
  | None => Some err
  end.

(** One member of the object, read into the [Id] field. *)
Definition decode_id_member (st : string * option error) (m : string * json)
    : string * option error :=
  if key_selects "id" m.1 then
    match m.2 with
    | JString s => (s, st.2)
    | JNull => st
    | JBool _ => (st.1, saveError st.2 (UnmarshalTypeError "bool"))
    | JNumber _ => (st.1, saveError st.2 (UnmarshalTypeError "number"))
    | JArray _ => (st.1, saveError st.2 (UnmarshalTypeError "array"))
    | JObject _ => (st.1, saveError st.2 (UnmarshalTypeError "object"))
    end
  else st.

(** [json.NewDecoder(body).Decode(&v)] for [v] of that type: the field after
    the call and the error returned. *)
Definition Decode_id (body : ResponseBody) (v : string) : string * option error :=
  match body with
  | Unreadable err => (v, Some err)
  | Document JNull => (v, None)
  | Document (JObject members) => foldl decode_id_member (v, None) members
  | Document (JBool _) => (v, Some (UnmarshalTypeError "bool"))
  | Document (JNumber _) => (v, Some (UnmarshalTypeError "number"))
  | Document (JString _) => (v, Some (UnmarshalTypeError "string"))
  | Document (JArray _) => (v, Some (UnmarshalTypeError "array"))
  end.

(** *** [mime/multipart.Writer] over a [bytes.Buffer] *)

Definition multipart_NewWriter (E : Env) : Multipart :=
  {| boundary := randomBoundary E; parts := []; closed := false |}.

(** [w.CreatePart(h)]: writing to the buffer cannot fail. *)
Definition CreatePart (h : MIMEHeader) (w : Multipart) : Multipart + error :=
  inl {| boundary := boundary w;
         parts := parts w ++ [{| part_header := h; part_body := [] |}];
         closed := closed w |}.

Fixpoint write_last (b : bytes) (ps : list Part) : list Part :=
  match ps with
  | [] => []
  | [p] => [{| part_header := part_header p; part_body := part_body p ++ [b] |}]
  | p :: ps' => p :: write_last b ps'
  end.

(** [io.Copy(partWriter, src)] into the part created last; a nil reader
    panics when it is read. *)
Definition io_Copy (w : Multipart) (src : option Reader) : M (Multipart * option error) :=
  match src with
  | None => panic
  | Some r =>
      mret ({| boundary := boundary w; parts := write_last (reader_data r) (parts w);
               closed := closed w |},
            reader_err r)
  end.

Definition multipart_Close (w : Multipart) : Multipart :=
  {| boundary := boundary w; parts := parts w; closed := true |}.

(** The boundary drawn by [NewWriter] is made of hexadecimal digits and is
    written unquoted. *)
Definition FormDataContentType (w : Multipart) : string :=
  "multipart/form-data; boundary=" +:+ boundary w.

(** ** Test items *)

(** [NewTestItem]: [launch.client] is read, so a nil launch panics. *)
Definition NewTestItem (launch : ptr) (name description itemType : string)
    (tags : slice string) (parent : ptr) : M ptr :=
  la ← deref launches launch;
  alloc_item
    {| Id := ""; Name := name; Description := description; Parent := parent;
       Parameters := None; Retry := false; StartTime := zero_Time;
       Tags := tags; Type_ := itemType;
       client := Launch_client la; launch := launch |}.

(** [Start] starts the test item. *)
Definition Start (E : Env) (ti : ptr) : M (option error) :=
  self ← deref items ti;
  c ← deref clients (client self);
  url ← match Parent self with
        | Some _ =>
            parent ← deref items (Parent self);
            mret (Endpoint c +:+ "/" +:+ Project c +:+ "/item/" +:+ Id parent)
        | None =>
            mret (Endpoint c +:+ "/" +:+ Project c +:+ "/item")
        end;
  la ← deref launches (launch self);
  let data :=
    JObject [("name", marshal_string (Name self));
             ("description", marshal_string (Description self));
             ("tags", marshal_strings (Tags self));
             ("start_time", marshal_int64 (toTimestamp (time_Now E)));
             ("launch_id", marshal_string (Launch_Id la));
             ("type", marshal_string (Type_ self));
             ("parameters", JNull)] in
  match json_Marshal data with
  | inr err => mret (Some (Wrapf err "failed to marshal object %v" [ArgValue data]))
  | inl b =>
  match http_NewRequest E MethodPost url (BufferBody b) with
  | inr err => mret (Some (Wrapf err "failed to create POST request to %s" [ArgString url]))
  | inl req =>
  let req := req_Header_Set "Content-Type" "application/json" req in
  '(resp, err) ← doRequest E req (Token c);
  resp ← deref_resp resp;
  match err with
  | Some err => mret (Some (Wrapf err "failed to execute POST request %s" [ArgURL (URL req)]))
  | None =>
  if negb (StatusCode resp =? StatusCreated)
  then mret (Some (Errorf "failed with status %s" [ArgString (Status resp)]))
  else
    let v := Decode_id (RespBody resp) "" in
    match v.2 with
    | Some err => mret (Some (Wrapf err "failed to decode response from %s" [ArgURL (URL req)]))
    | None => update_item ti (set_Id v.1);; mret None
    end
  end end end.

(** [Finish] finishes the test item. *)
Definition Finish (E : Env) (ti : ptr) (status : string) : M (option error) :=
  self ← deref items ti;
  c ← deref clients (client self);
  let url := Endpoint c +:+ "/" +:+ Project c +:+ "/item/" +:+ Id self in
  let data :=
    JObject [("end_time", marshal_int64 (toTimestamp (time_Now E)));
             ("status", marshal_string status)] in
  match json_Marshal data with
  | inr err => mret (Some (Wrapf err "failed to marshal request data %v" [ArgValue data]))
  | inl b =>
  match http_NewRequest E MethodPut url (BufferBody b) with
  | inr err => mret (Some (Wrapf err "failed to create PUT request to %s" [ArgString url]))
  | inl req =>
  let req := req_Header_Set "Content-Type" "application/json" req in
  '(resp, err) ← doRequest E req (Token c);
  resp ← deref_resp resp;
  match err with
  | Some err => mret (Some (Wrapf err "failed to execute PUT request to %s" [ArgURL (URL req)]))
  | None =>
  if negb (StatusCode resp =? StatusOK)
  then mret (Some (Errorf "failed with status %s" [ArgString (Status resp)]))
  else mret None
  end end end.

(** The double quote character. *)
Definition dquote : string := String (Ascii.ascii_of_nat 34) "".

(** [getReqForLogWithAttach] creates the request for a log with a message
    and an attachment. *)
Definition getReqForLogWithAttach (E : Env) (ti : ptr) (message level : string)
    (attachment : Attachment) : M (Request + error) :=
  self ← deref items ti;
  c ← deref clients (client self);
  let url := Endpoint c +:+ "/" +:+ Project c +:+ "/log" in
  let bodyWriter := multipart_NewWriter E in
  (* json request part *)
  let h : MIMEHeader := ∅ in
  let h := Header_Set "Content-Disposition"
             ("form-data; name=" +:+ dquote +:+ "json_request_part" +:+ dquote) h in
  let h := Header_Set "Content-Type" "application/json" h in
  match CreatePart h bodyWriter with
  | inr err => mret (inr (Wrapf err "failed to create form file" []))
  | inl bodyWriter =>
  let f := JObject [("name", marshal_string (Attachment_Name attachment))] in
  let jsonReqPart :=
    JArray [JObject [("file", f);
                     ("item_id", marshal_string (Id self));
                     ("level", marshal_string level);
                     ("message", marshal_string message);
                     ("time", marshal_int64 (toTimestamp (time_Now E)))]] in
  match json_Marshal jsonReqPart with
  | inr err => mret (inr (Wrapf err "failed to marshal to JSON: %v" [ArgValue jsonReqPart]))
  | inl bs =>
  let reqReader := bytes_NewReader bs in
  '(bodyWriter, err) ← io_Copy bodyWriter (Some reqReader);
  match err with
  | Some err => mret (inr (Wrapf err "failed to copy reader" []))
  | None =>
  (* file *)
  let h : MIMEHeader := ∅ in
  let h := Header_Set "Content-Disposition"
             ("form-data; name=" +:+ dquote +:+ "file" +:+ dquote +:+
              "; filename=" +:+ dquote +:+ Attachment_Name attachment +:+ dquote) h in
  let h := Header_Set "Content-Type" (MimeType attachment) h in
  match CreatePart h bodyWriter with
  | inr err => mret (inr (Wrapf err "failed to create form file" []))
  | inl bodyWriter =>
  '(bodyWriter, err) ← io_Copy bodyWriter (Data attachment);
  match err with
  | Some err => mret (inr (Wrapf err "failed to copy file writer" []))
  | None =>
  let bodyWriter := multipart_Close bodyWriter in
  match http_NewRequest E MethodPost url (MultipartBody bodyWriter) with
  | inr err => mret (inr (Wrapf err "failed to create POST request to %s" [ArgString url]))
  | inl req =>
  mret (inl (req_Header_Set "Content-Type" (FormDataContentType bodyWriter) req))
  end end end end end end.

(** [getReqForLog] creates the request for a log with a message. *)
Definition getReqForLog (E : Env) (ti : ptr) (message level : string)
    : M (Request + error) :=
  self ← deref items ti;
  c ← deref clients (client self);
  let url := Endpoint c +:+ "/" +:+ Project c +:+ "/log" in
  let data :=
    JObject [("item_id", marshal_string (Id self));
             ("message", marshal_string message);
             ("level", marshal_string level);
             ("time", marshal_int64 (toTimestamp (time_Now E)))] in
  match json_Marshal data with
  | inr err => mret (inr (Wrapf err "failed to marshal object, %v" [ArgValue data]))
  | inl b =>
  match http_NewRequest E MethodPost url (BufferBody b) with
  | inr err => mret (inr (Wrapf err "failed to create POST request to %s" [ArgString url]))
  | inl req =>
  mret (inl (req_Header_Set "Content-Type" "application/json" req))
  end end.

(** [Log] sends a log for the test item. *)
Definition Log (E : Env) (ti : ptr) (message level : string)
    (attachment : option Attachment) : M (option error) :=
  r ← match attachment with
      | Some a => getReqForLogWithAttach E ti message level a
      | None => getReqForLog E ti message level
      end;
  match r with
  | inr err => mret (Some err)
  | inl req =>
  self ← deref items ti;
  c ← deref clients (client self);
  '(resp, err) ← doRequest E req (Token c);
  resp ← deref_resp resp;
  match err with
  | Some err => mret (Some (Wrapf err "failed to execute POST request %s" [ArgURL (URL req)]))
  | None =>
  if negb (StatusCode resp =? StatusCreated)
  then mret (Some (Errorf "failed with status %s" [ArgString (Status resp)]))
  else mret None
  end end.

(** [Update] updates the description and the tags. *)
Definition Update (E : Env) (ti : ptr) (description : string) (tags : slice string)
    : M (option error) :=
  self ← deref items ti;
  c ← deref clients (client self);
  let url := Endpoint c +:+ "/" +:+ Project c +:+ "/item/" +:+ Id self +:+ "/update" in
  let data :=
    JObject [("description", marshal_string description);
             ("tags", marshal_strings tags)] in
  match json_Marshal data with
  | inr err => mret (Some (Wrapf err "failed to marshal request data %v" [ArgValue data]))
  | inl b =>
  match http_NewRequest E MethodPut url (BufferBody b) with
  | inr err => mret (Some (Wrapf err "failed to create PUT request to %s" [ArgString url]))
  | inl req =>
  let req := req_Header_Set "Content-Type" "application/json" req in
  '(resp, err) ← doRequest E req (Token c);
  resp ← deref_resp resp;
  match err with
  | Some err => mret (Some (Wrapf err "failed to execute PUT request to %s" [ArgURL (URL req)]))
  | None =>
  if negb (StatusCode resp =? StatusOK)
  then mret (Some (Errorf "failed with status %s" [ArgString (Status resp)]))
  else update_item ti (set_Description_Tags description tags);; mret None
  end end end.

(** [GetActivity]: [return nil, nil]. *)
Definition GetActivity (ti : ptr) : M (option Activity * option error) :=
  mret (None, None).

(** ** Read-only client *)

(** [CheckConnect] checks the connection. *)
Definition CheckConnect (E : Env) (cp : ptr) : M (option error) :=
  c ← deref clients cp;
  let url := Endpoint c +:+ "/user" in
  match http_NewRequest E MethodGet url NoBody with
  | inr err => mret (Some (Wrapf err "can't create a new request for %s" [ArgString url]))
  | inl req =>
  '(resp, err) ← doRequest E req (Token c);
  resp ← deref_resp resp;
  match err with
  | Some err => mret (Some (Wrapf err "failed to execute GET request %s" [ArgURL (URL req)]))
  | None =>
  if negb (StatusCode resp =? StatusOK)
  then mret (Some (Errorf "failed with status %s" [ArgString (Status resp)]))
  else mret None
  end end.

(** [GetDashboard] gets the dashboards of the project.  [decode_Dashboard]
    is [json.Decoder.Decode] into a nil [*Dashboard]: the pointer after the
    call and the error returned. *)
Definition GetDashboard (E : Env)
    (decode_Dashboard : ResponseBody -> option Dashboard * option error)
    (cp : ptr) : M (option Dashboard * option error) :=
  c ← deref clients cp;
  let url := Endpoint c +:+ "/" +:+ Project c +:+ "/dashboard" in
  match http_NewRequest E MethodGet url NoBody with
  | inr err => mret (None, Some (Wrapf err "can't create request for %s" [ArgString url]))
  | inl req =>
  let req := req_Header_Set "Content-Type" "application/json" req in
  '(resp, err) ← doRequest E req (Token c);
  resp ← deref_resp resp;
  match err with
  | Some err => mret (None, Some (Wrapf err "failed to execute GET request for %s" [ArgString url]))
  | None =>
  if negb (StatusCode resp =? StatusOK)
  then mret (None, Some (Errorf "failed with status %s" [ArgString (Status resp)]))
  else
    let d := decode_Dashboard (RespBody resp) in
    match d.2 with
    | Some err => mret (None, Some (Wrapf err "failed to decode response for dashboard" []))
    | None => mret (d.1, None)
    end
  end end.

(** ** A reporting session for the examples *)

Definition demo_client : Client := NewClient "rp.example.com/" "demo" "tok" 0.

Definition demo_launch : Launch :=
  {| Launch_Id := "L1"; Launch_client := Some 1%positive |}.

(** One client, one launch, no test item yet, nothing sent. *)
Definition demo_store : State :=
  {| items := ∅;
     launches := {[ 1%positive := demo_launch ]};
     clients := {[ 1%positive := demo_client ]};
     calls := [] |}.

Definition demo_now : Time := {| unix_sec := 1700000000; unix_nsec := 123456789 |}.

(** An environment whose [doRequest] gives every call the same answer; the
    URLs of the session all parse. *)
Definition answering (answer : option Response * option error) : Env :=
  {| time_Now := demo_now;
     url_Parse := fun _ => None;
     randomBoundary := "5f2a9c1e07b3";
     doRequest_returns := fun _ _ => answer |}.

(** HTTP 201 with a JSON body. *)
Definition created (doc : json) : option Response * option error :=
  (Some {| StatusCode := 201; Status := "201 Created"; RespBody := Document doc |}, None).

(** HTTP 200 with an empty body. *)
Definition ok : option Response * option error :=
  (Some {| StatusCode := 200; Status := "200 OK";
           RespBody := Unreadable (External "EOF") |}, None).

(** A transport failure: no response, an error. *)
Definition refused : option Response * option error :=
  (None, Some (External "dial tcp: connection refused")).

(** [NewTestItem(launch, "Suite A", "", TestItemSuite, nil, nil)] *)
Definition new_suite : M ptr :=
  NewTestItem (Some 1%positive) "Suite A" "" TestItemSuite None None.

(** [NewTestItem(launch, "Test 1", "", TestItemTest, nil, suite)] *)
Definition new_test (suite : ptr) : M ptr :=
  NewTestItem (Some 1%positive) "Test 1" "" TestItemTest None suite.

Definition screenshot : Attachment :=
  {| Attachment_Name := "shot.png";
     Data := Some {| reader_data := RawBytes "PNG"; reader_err := None |};
     MimeType := "image/png" |}.

(** * Properties *)

(** ** Byte strings *)

Section string_facts.

Implicit Types s t p : string.

Lemma append_cons c s t : String c s +:+ t = String c (s +:+ t).
Proof. reflexivity. Qed.

Lemma append_nil_l s : "" +:+ s = s.
Proof. reflexivity. Qed.

Lemma append_assoc s t p : (s +:+ t) +:+ p = s +:+ (t +:+ p).
Proof. induction s as [|c s IH]; [done|]. by rewrite !append_cons, IH. Qed.

Lemma length_append s t :
  String.length (s +:+ t) = (String.length s + String.length t)%nat.
Proof. induction s as [|c s IH]; [done|]. rewrite append_cons. simpl. by rewrite IH. Qed.

Lemma slice_to_app p s : strings.slice_to (String.length p) (p +:+ s) = p.
Proof. induction p as [|c p IH]; [by destruct s|]. rewrite append_cons. simpl. by rewrite IH. Qed.

Lemma slice_from_app p s : strings.slice_from (String.length p) (p +:+ s) = s.
Proof. induction p as [|c p IH]; [by destruct s|]. by rewrite append_cons. Qed.

Lemma slice_to_slice_to n m s :
  (n <= m)%nat -> strings.slice_to n (strings.slice_to m s) = strings.slice_to n s.
Proof.
  revert m s. induction n as [|n IH]; intros m s Hle; [by destruct m, s|].
  destruct m as [|m]; [lia|]. destruct s as [|c s]; [done|].
  simpl. rewrite IH; [done|lia].
Qed.

Lemma length_slice_to n s : (String.length (strings.slice_to n s) <= n)%nat.
Proof.
  revert s. induction n as [|n IH]; intros [|c s]; simpl; try lia.
  specialize (IH s). lia.
Qed.

Lemma length_slice_to_le n s : (String.length (strings.slice_to n s) <= String.length s)%nat.
Proof.
  revert s. induction n as [|n IH]; intros [|c s]; simpl; try lia.
  specialize (IH s). lia.
Qed.

Lemma HasPrefix_app p s : strings.HasPrefix (p +:+ s) p = true.
Proof.
  unfold strings.HasPrefix. rewrite slice_to_app, String.eqb_refl, length_append.
  rewrite andb_true_r. apply Nat.leb_le. lia.
Qed.

Lemma HasSuffix_app s t : strings.HasSuffix (s +:+ t) t = true.
Proof.
  unfold strings.HasSuffix. rewrite length_append.
  replace (String.length s + String.length t - String.length t)%nat
    with (String.length s) by lia.
  rewrite slice_from_app, String.eqb_refl, andb_true_r. apply Nat.leb_le. lia.
Qed.

(** A prefix of a slice [s[:n]] is a prefix of [s]. *)
Lemma HasPrefix_slice_to n s p :
  strings.HasPrefix (strings.slice_to n s) p = true -> strings.HasPrefix s p = true.
Proof.
  unfold strings.HasPrefix. intros [Hlen Heq]%andb_true_iff.
  apply Nat.leb_le in Hlen. apply String.eqb_eq in Heq.
  pose proof (length_slice_to n s). pose proof (length_slice_to_le n s).
  rewrite slice_to_slice_to in Heq by lia.
  rewrite Heq, String.eqb_refl, andb_true_r. apply Nat.leb_le. lia.
Qed.

Lemma HasPrefix_TrimSuffix s t p :
  strings.HasPrefix (strings.TrimSuffix s t) p = true -> strings.HasPrefix s p = true.
Proof.
  unfold strings.TrimSuffix. destruct (strings.HasSuffix s t); [|done].
  apply HasPrefix_slice_to.
Qed.

End string_facts.

(** ** Strings in JSON bodies *)

Lemma coerce_from_ascii s :
  Forall (fun c => byte_in 0 127 c = true) (String.list_ascii_of_string s) ->
  coerce_from 0 s = s.
Proof.
  induction s as [|c s IH]; intros H; [done|].
  apply Forall_cons in H as [Hc Hs]. cbn [coerce_from DecodeRune_size].
  rewrite Hc. simpl. by rewrite IH.
Qed.

(** A string of ASCII bytes is written as it is. *)
Lemma coerce_utf8_ascii s :
  Forall (fun c => byte_in 0 127 c = true) (String.list_ascii_of_string s) ->
  coerce_utf8 s = s.
Proof. apply coerce_from_ascii. Qed.

(** The two-byte encoding of U+00E9 is kept; a lone [FF], a lone
    continuation byte and a truncated rune are each replaced; an encoded
    surrogate is replaced byte by byte. *)
Example coerce_utf8_samples :
  let b := fun n => String (Ascii.ascii_of_nat n) "" in
  coerce_utf8 (b 195%nat +:+ b 169%nat) = b 195%nat +:+ b 169%nat /\
  coerce_utf8 ("a" +:+ b 255%nat +:+ "b") = "a" +:+ replacement_rune +:+ "b" /\
  coerce_utf8 (b 169%nat +:+ "x") = replacement_rune +:+ "x" /\
  coerce_utf8 (b 240%nat +:+ b 159%nat +:+ b 152%nat) = replacement_rune +:+ replacement_rune +:+ replacement_rune /\
  coerce_utf8 (b 237%nat +:+ b 160%nat +:+ b 128%nat) = replacement_rune +:+ replacement_rune +:+ replacement_rune /\
  coerce_utf8 replacement_rune = replacement_rune.
Proof. vm_compute. done. Qed.

(** ** [NewClient] *)

Example NewClient_plain :
  NewClient "rp.example.com/" "demo" "tok" 0
  = {| Endpoint := "https://rp.example.com/api/v1"; Token := "tok"; Project := "demo" |}.
Proof. reflexivity. Qed.

Example NewClient_http :
  Endpoint (NewClient "http://rp.example.com" "demo" "tok" 2)
  = "http://rp.example.com/api/v2".
Proof. reflexivity. Qed.

(** C5, the claim as stated fails: an endpoint that already carries a
    version path keeps it, so the result for version 1 does not end in
    [/api/v1]. *)
Lemma NewClient_keeps_existing_version :
  strings.HasPrefix "rp.example.com/api/v2" "http://" = false /\
  strings.HasPrefix "rp.example.com/api/v2" "https://" = false /\
  Endpoint (NewClient "rp.example.com/api/v2" "demo" "tok" 1)
    = "https://rp.example.com/api/v2" /\
  strings.HasSuffix (Endpoint (NewClient "rp.example.com/api/v2" "demo" "tok" 1))
    ("/api/v" +:+ strconv.Itoa 1) = false.
Proof. vm_compute. done. Qed.

(** C5 (amended): for a raw endpoint without an [http://] or [https://]
    prefix, the Endpoint starts with [https://]; when the endpoint, one
    trailing slash removed, does not contain [/api/v], the Endpoint ends with
    [/api/v] followed by the version, which is 1 for every [apiVersion]
    below 1; when it does contain [/api/v], the Endpoint is [https://]
    followed by that endpoint and nothing is appended. *)
Theorem NewClient_scheme_and_version (endpoint project token : string) (apiVersion : Z) :
  strings.HasPrefix endpoint "http://" = false ->
  strings.HasPrefix endpoint "https://" = false ->
  strings.HasPrefix (Endpoint (NewClient endpoint project token apiVersion)) "https://" = true /\
  (strings.Contains (strings.TrimSuffix endpoint "/") "/api/v" = false ->
     strings.HasSuffix (Endpoint (NewClient endpoint project token apiVersion))
       ("/api/v" +:+ strconv.Itoa (if apiVersion <? 1 then 1 else apiVersion)) = true) /\
  (strings.Contains (strings.TrimSuffix endpoint "/") "/api/v" = true ->
     Endpoint (NewClient endpoint project token apiVersion)
       = "https://" +:+ strings.TrimSuffix endpoint "/").
Proof.
  intros Hhttp Hhttps. unfold NewClient. cbv zeta. cbn [Endpoint].
  assert (strings.HasPrefix (strings.TrimSuffix endpoint "/") "https://" = false) as ->.
  { apply not_true_is_false. intros H%HasPrefix_TrimSuffix. congruence. }
  assert (strings.HasPrefix (strings.TrimSuffix endpoint "/") "http://" = false) as ->.
  { apply not_true_is_false. intros H%HasPrefix_TrimSuffix. congruence. }
  cbn [negb andb]. rewrite append_nil_l.
  split; [|split]; intros.
  - destruct (negb _); rewrite ?append_assoc; apply HasPrefix_app.
  - rewrite H. cbn [negb]. rewrite append_assoc. apply HasSuffix_app.
  - by rewrite H.
Qed.

Lemma NewClient_scheme_and_version_witness :
  strings.HasPrefix "rp.example.com/" "http://" = false /\
  strings.HasPrefix "rp.example.com/" "https://" = false /\
  strings.HasPrefix (Endpoint (NewClient "rp.example.com/" "demo" "tok" 0)) "https://" = true /\
  strings.HasSuffix (Endpoint (NewClient "rp.example.com/" "demo" "tok" 0)) "/api/v1" = true.
Proof.
  destruct (NewClient_scheme_and_version "rp.example.com/" "demo" "tok" 0)
    as (Hp & Hs & _); [reflexivity | reflexivity |].
  split; [reflexivity|]. split; [reflexivity|].
  split; [exact Hp | exact (Hs eq_refl)].
Defined.

(** ** Running the operations *)

Ltac unfold_M :=
  unfold mbind, M_bind, mret, M_ret, panic, deref, deref_resp, doRequest,
    update_item, store_item, alloc_item, io_Copy in *.

Ltac unfold_lib :=
  unfold json_Marshal, http_NewRequest, CreatePart, multipart_Close,
    multipart_NewWriter, bytes_NewReader in *.

(** Run a computation down to its leaves, case by case. *)
Ltac run_M := repeat (unfold_M; simpl in *; try case_match; simplify_eq/=).

(** Split a conjunction of clauses into its clauses. *)
Ltac clauses := repeat match goal with |- _ /\ _ => split end.

(** *** What the operations leave alone *)

Lemma Finish_items E ti status σ : items (Finish E ti status σ).2 = items σ.
Proof. unfold Finish. unfold_lib. run_M; done. Qed.

Lemma Log_items E ti message level attachment σ :
  items (Log E ti message level attachment σ).2 = items σ.
Proof. unfold Log, getReqForLog, getReqForLogWithAttach. unfold_lib. run_M; done. Qed.

Lemma GetActivity_items ti σ : items (GetActivity ti σ).2 = items σ.
Proof. done. Qed.

Lemma Update_keeps_Id E ti description tags σ l it :
  items σ !! l = Some it ->
  exists it', items (Update E ti description tags σ).2 !! l = Some it' /\ Id it' = Id it.
Proof.
  intros Hl. unfold Update. unfold_lib. run_M; eauto.
  all: destruct (decide (l = p)) as [->|]; simplify_map_eq; eauto.
Qed.

(** [Start] rewrites at most its receiver, only when it returns nil, and
    then only the [Id] field. *)
Lemma Start_frame E ti σ l it :
  items σ !! l = Some it ->
  items (Start E ti σ).2 !! l = Some it \/
  (ti = Some l /\ (Start E ti σ).1 = Returned None /\
   exists id, items (Start E ti σ).2 !! l = Some (set_Id id it)).
Proof.
  intros Hl. unfold Start. unfold_lib. run_M; eauto.
  all: destruct (decide (l = p)) as [->|]; simplify_map_eq; eauto.
Qed.

(** *** [Start] *)

Example Start_root_then_child :
  let session :=
    suite ← new_suite;
    test ← new_test suite;
    Start (answering (created (JObject [("id", JString "abc")]))) suite;;
    Start (answering (created (JObject [("id", JString "t-1")]))) test;;
    mret (suite, test) in
  (session demo_store).1 = Returned (Some 1%positive, Some 2%positive) /\
  Id <$> items (session demo_store).2 !! 1%positive = Some "abc" /\
  Id <$> items (session demo_store).2 !! 2%positive = Some "t-1" /\
  URL <$> (fst <$> calls (session demo_store).2)
    = ["https://rp.example.com/api/v1/demo/item";
       "https://rp.example.com/api/v1/demo/item/abc"].
Proof. vm_compute. done. Qed.

(** The request [Start] hands to [doRequest]. *)
Lemma Start_sends E σ l self cl c ll la url :
  items σ !! l = Some self ->
  client self = Some cl -> clients σ !! cl = Some c ->
  launch self = Some ll -> launches σ !! ll = Some la ->
  match Parent self with
  | None => url = Endpoint c +:+ "/" +:+ Project c +:+ "/item"
  | Some p =>
      exists parent, items σ !! p = Some parent /\
        url = Endpoint c +:+ "/" +:+ Project c +:+ "/item/" +:+ Id parent
  end ->
  url_Parse E url = None ->
  calls (Start E (Some l) σ).2 = (calls σ ++
    [({| Method := MethodPost; URL := url;
         Header := {[ "Content-Type" := ["application/json"] ]};
         Body := BufferBody (JSONBytes (JObject
           [("name", JString (coerce_utf8 (Name self)));
            ("description", JString (coerce_utf8 (Description self)));
            ("tags", marshal_strings (Tags self));
            ("start_time", JNumber (toTimestamp (time_Now E)));
            ("launch_id", JString (coerce_utf8 (Launch_Id la)));
            ("type", JString (coerce_utf8 (Type_ self)));
            ("parameters", JNull)])) |}, Token c)])%list.
Proof.
  intros Hl Hcl Hc Hll Hla Hurl Hparse.
  unfold Start. unfold_lib.
  destruct (Parent self) as [p|] eqn:Hp.
  - destruct Hurl as (parent & Hparent & ->). run_M; done.
  - subst url. run_M; done.
Qed.

(** [Start] makes at most one call, and the body of that call carries the
    clock reading under [start_time]. *)
Lemma Start_calls E ti σ :
  calls (Start E ti σ).2 = calls σ \/
  exists req token members,
    calls (Start E ti σ).2 = (calls σ ++ [(req, token)])%list /\
    Body req = BufferBody (JSONBytes (JObject members)) /\
    ("start_time", JNumber (toTimestamp (time_Now E))) ∈ members.
Proof.
  unfold Start. unfold_lib.
  run_M; eauto; right; do 3 eexists; (split; [done|]); (split; [done|]); set_solver.
Qed.

(** What [Start] does once [doRequest] has answered with a response. *)
Lemma Start_response_present E σ l self cl c ll la url resp err :
  items σ !! l = Some self ->
  client self = Some cl -> clients σ !! cl = Some c ->
  launch self = Some ll -> launches σ !! ll = Some la ->
  match Parent self with
  | None => url = Endpoint c +:+ "/" +:+ Project c +:+ "/item"
  | Some p =>
      exists parent, items σ !! p = Some parent /\
        url = Endpoint c +:+ "/" +:+ Project c +:+ "/item/" +:+ Id parent
  end ->
  url_Parse E url = None ->
  (forall req token, doRequest_returns E req token = (Some resp, err)) ->
  if decide (err = None /\ StatusCode resp = StatusCreated
             /\ (Decode_id (RespBody resp) "").2 = None)
  then (Start E (Some l) σ).1 = Returned None /\
       items (Start E (Some l) σ).2
         = <[l := set_Id (Decode_id (RespBody resp) "").1 self]> (items σ)
  else (exists e, (Start E (Some l) σ).1 = Returned (Some e)) /\
       items (Start E (Some l) σ).2 = items σ.
Proof.
  intros Hl Hcl Hc Hll Hla Hurl Hparse Hdo.
  unfold Start. unfold_lib.
  destruct (Parent self) as [p|] eqn:Hp.
  - destruct Hurl as (parent & Hparent & ->).
    case_decide as Hd.
    + destruct Hd as (-> & Hs & Hdec). run_M; rewrite ?Hdo in *; run_M; try done; try lia.
    + run_M; rewrite ?Hdo in *; run_M; eauto.
      all: try (exfalso; apply Hd; repeat split; try done; lia).
  - subst url.
    case_decide as Hd.
    + destruct Hd as (-> & Hs & Hdec). run_M; rewrite ?Hdo in *; run_M; try done; try lia.
    + run_M; rewrite ?Hdo in *; run_M; eauto.
      all: try (exfalso; apply Hd; repeat split; try done; lia).
Qed.

(** Without a response, [Start] panics at [defer resp.Body.Close()],
    whatever the error is. *)
Lemma Start_no_response_panics E σ l self cl c ll la url err :
  items σ !! l = Some self ->
  client self = Some cl -> clients σ !! cl = Some c ->
  launch self = Some ll -> launches σ !! ll = Some la ->
  match Parent self with
  | None => url = Endpoint c +:+ "/" +:+ Project c +:+ "/item"
  | Some p =>
      exists parent, items σ !! p = Some parent /\
        url = Endpoint c +:+ "/" +:+ Project c +:+ "/item/" +:+ Id parent
  end ->
  url_Parse E url = None ->
  (forall req token, doRequest_returns E req token = (None, err)) ->
  (Start E (Some l) σ).1 = Panicked /\ items (Start E (Some l) σ).2 = items σ.
Proof.
  intros Hl Hcl Hc Hll Hla Hurl Hparse Hdo.
  unfold Start. unfold_lib.
  destruct (Parent self) as [p|] eqn:Hp.
  - destruct Hurl as (parent & Hparent & ->). run_M; rewrite ?Hdo in *; run_M; done.
  - subst url. run_M; rewrite ?Hdo in *; run_M; done.
Qed.

(** C4: [Start] posts to [{endpoint}/{project}/item] when [Parent] is nil and
    to [{endpoint}/{project}/item/{parentId}], with the parent's current
    [Id], when it is not: for a receiver whose client, launch and parent
    pointers are valid and a URL that parses, exactly that request reaches
    [doRequest]. *)
Theorem Start_target E σ l self cl c ll la url :
  items σ !! l = Some self ->
  client self = Some cl -> clients σ !! cl = Some c ->
  launch self = Some ll -> launches σ !! ll = Some la ->
  match Parent self with
  | None => url = Endpoint c +:+ "/" +:+ Project c +:+ "/item"
  | Some p =>
      exists parent, items σ !! p = Some parent /\
        url = Endpoint c +:+ "/" +:+ Project c +:+ "/item/" +:+ Id parent
  end ->
  url_Parse E url = None ->
  exists req,
    calls (Start E (Some l) σ).2 = (calls σ ++ [(req, Token c)])%list /\
    Method req = MethodPost /\ URL req = url.
Proof.
  intros Hl Hcl Hc Hll Hla Hurl Hparse. eexists. split.
  - by eapply Start_sends.
  - done.
Qed.

(** A child created before its parent is started still posts to the id the
    parent has when the child starts. *)
Lemma Start_target_witness :
  let E := answering (created (JObject [("id", JString "t-1")])) in
  let σ := ((suite ← new_suite; test ← new_test suite;
             Start (answering (created (JObject [("id", JString "abc")]))) suite)
            demo_store).2 in
  exists self req,
    items σ !! 2%positive = Some self /\ Parent self = Some 1%positive /\
    calls (Start E (Some 2%positive) σ).2 = (calls σ ++ [(req, "tok")])%list /\
    Method req = "POST" /\
    URL req = "https://rp.example.com/api/v1/demo/item/abc".
Proof.
  intros E σ.
  destruct (Start_target E σ 2%positive
              {| Id := ""; Name := "Test 1"; Description := ""; Parent := Some 1%positive;
                 Parameters := None; Retry := false; StartTime := zero_Time;
                 Tags := None; Type_ := "TEST";
                 client := Some 1%positive; launch := Some 1%positive |}
              1%positive demo_client 1%positive demo_launch
              "https://rp.example.com/api/v1/demo/item/abc")
    as (req & Hcalls & Hm & Hu); try reflexivity.
  - eexists. split; reflexivity.
  - eexists _, req. repeat split; try reflexivity; assumption.
Defined.

(** C1, at a transport failure: [doRequest] returns no response and an
    error; [Start] does not return the wrapped error, it panics on
    [resp.Body] before the error is looked at.  The request had been handed
    over and the item is as it was. *)
Theorem Start_transport_failure :
  let session := suite ← new_suite; Start (answering refused) suite in
  (session demo_store).1 = Panicked /\
  URL <$> (fst <$> calls (session demo_store).2)
    = ["https://rp.example.com/api/v1/demo/item"] /\
  Id <$> items (session demo_store).2 !! 1%positive = Some "".
Proof. vm_compute. done. Qed.

(** *** [Decode] into the [Id] field *)



Lemma decode_id_error_sticks members st :
  st.2 <> None -> (foldl decode_id_member st members).2 <> None.
Proof.
  revert st. induction members as [|m members IH]; intros st Hst; [done|].
  simpl. apply IH. unfold decode_id_member.
  destruct (key_selects "id" m.1); [|done].
  destruct st as [v [e|]]; [|done]. by destruct m.2.
Qed.

Lemma decode_id_mistyped members st k j :
  (k, j) ∈ members -> key_selects "id" k = true ->
  match j with JNull | JString _ => False | _ => True end ->
  (foldl decode_id_member st members).2 <> None.
Proof.
  intros Hin Hk Hj. revert st.
  induction members as [|m members IH]; intros st; [by apply not_elem_of_nil in Hin|].
  apply elem_of_cons in Hin as [<-|Hin]; simpl; [|by apply IH].
  apply decode_id_error_sticks. unfold decode_id_member. simpl. rewrite Hk.
  destruct st as [v [e|]]; by destruct j.
Qed.

Example key_selects_id :
  key_selects "id" "id" = true /\ key_selects "id" "ID" = true /\
  key_selects "id" "Id" = true /\ key_selects "id" "identifier" = false /\
  key_selects "id" "i" = false.
Proof. vm_compute. done. Qed.





(** *** The [Id] and [StartTime] fields over a run *)

(** C7, the claim as stated fails: a second [Start] that succeeds replaces
    the [Id] the first one stored. *)
Lemma Start_twice_replaces_Id :
  let first :=
    suite ← new_suite;
    Start (answering (created (JObject [("id", JString "abc")]))) suite in
  let second := Start (answering (created (JObject [("id", JString "xyz")]))) (Some 1%positive) in
  (first demo_store).1 = Returned None /\
  Id <$> items (first demo_store).2 !! 1%positive = Some "abc" /\
  (second (first demo_store).2).1 = Returned None /\
  Id <$> items (second (first demo_store).2).2 !! 1%positive = Some "xyz".
Proof. vm_compute. done. Qed.

Lemma NewTestItem_fresh launch name description itemType tags parent σ l :
  (NewTestItem launch name description itemType tags parent σ).1 = Returned (Some l) ->
  items σ !! l = None /\
  exists it, items (NewTestItem launch name description itemType tags parent σ).2 !! l = Some it
    /\ Id it = "" /\ Parent it = parent /\ StartTime it = zero_Time.
Proof.
  unfold NewTestItem. run_M; intros ?; simplify_eq. split.
  - apply not_elem_of_dom, is_fresh.
  - eexists. rewrite lookup_insert_eq. done.
Qed.

(** What a nil result of [Start] tells about the call. *)
Lemma Start_returns_nil_inv E ti σ :
  (Start E ti σ).1 = Returned None ->
  exists l self cl c req resp id,
    ti = Some l /\ items σ !! l = Some self /\
    client self = Some cl /\ clients σ !! cl = Some c /\
    calls (Start E ti σ).2 = (calls σ ++ [(req, Token c)])%list /\
    doRequest_returns E req (Token c) = (Some resp, None) /\
    StatusCode resp = 201 /\
    Decode_id (RespBody resp) "" = (id, None) /\
    items (Start E ti σ).2 = <[l := set_Id id self]> (items σ).
Proof.
  unfold Start. unfold_lib. run_M; try done; intros _.
  all: do 7 eexists; repeat (split; [done|]).
  all: repeat split; try done.
  all: first [ by apply Z.eqb_eq, negb_false_iff
             | by destruct (Decode_id _ _); simplify_eq/= ].
Qed.

(** C7 (amended): the [Id] of the item [NewTestItem] creates is empty;
    [Finish], [Log], [Update] and [GetActivity] change the [Id] of no item;
    [Start] changes the [Id] of no item but its receiver, and its receiver's
    only when it returns no error.  When it does return no error, one
    request was answered by a 201 whose body decoded, and the receiver's
    [Id] is the decoded id; and for a valid receiver, a URL that parses and
    such an answer [Start] does return no error and store the decoded id,
    whatever [Id] the item had before (so also when it had been started
    already). *)
Theorem Id_changes_only_on_successful_Start E σ l it :
  items σ !! l = Some it ->
  (forall launch name description itemType tags parent l',
     (NewTestItem launch name description itemType tags parent σ).1 = Returned (Some l') ->
     Id <$> items (NewTestItem launch name description itemType tags parent σ).2 !! l' = Some "") /\
  (forall ti status, Id <$> items (Finish E ti status σ).2 !! l = Some (Id it)) /\
  (forall ti message level attachment,
     Id <$> items (Log E ti message level attachment σ).2 !! l = Some (Id it)) /\
  (forall ti description tags,
     Id <$> items (Update E ti description tags σ).2 !! l = Some (Id it)) /\
  (forall ti, Id <$> items (GetActivity ti σ).2 !! l = Some (Id it)) /\
  (forall ti,
     ti <> Some l \/ (Start E ti σ).1 <> Returned None ->
     Id <$> items (Start E ti σ).2 !! l = Some (Id it)) /\
  ((Start E (Some l) σ).1 = Returned None ->
   exists cl c req resp id,
     client it = Some cl /\ clients σ !! cl = Some c /\
     calls (Start E (Some l) σ).2 = (calls σ ++ [(req, Token c)])%list /\
     doRequest_returns E req (Token c) = (Some resp, None) /\
     StatusCode resp = 201 /\
     Decode_id (RespBody resp) "" = (id, None) /\
     Id <$> items (Start E (Some l) σ).2 !! l = Some id) /\
  (forall cl c ll la url resp id,
     client it = Some cl -> clients σ !! cl = Some c ->
     launch it = Some ll -> launches σ !! ll = Some la ->
     match Parent it with
     | None => url = Endpoint c +:+ "/" +:+ Project c +:+ "/item"
     | Some p =>
         exists parent, items σ !! p = Some parent /\
           url = Endpoint c +:+ "/" +:+ Project c +:+ "/item/" +:+ Id parent
     end ->
     url_Parse E url = None ->
     (forall req token, doRequest_returns E req token = (Some resp, None)) ->
     StatusCode resp = 201 ->
     Decode_id (RespBody resp) "" = (id, None) ->
     (Start E (Some l) σ).1 = Returned None /\
     Id <$> items (Start E (Some l) σ).2 !! l = Some id).
Proof.
  intros Hl.
  clauses; intros.
  - apply NewTestItem_fresh in H as (_ & it' & -> & Hid & _). simpl. by rewrite Hid.
  - by rewrite Finish_items, Hl.
  - by rewrite Log_items, Hl.
  - destruct (Update_keeps_Id E ti description tags σ l it Hl) as (it' & -> & Hid).
    simpl. by rewrite Hid.
  - by rewrite GetActivity_items, Hl.
  - destruct (Start_frame E ti σ l it Hl) as [->|(-> & Hret & _)]; [done|].
    by destruct H.
  - destruct (Start_returns_nil_inv E (Some l) σ H)
      as (l' & self & cl & c & req & resp & id & [= <-] & Hself & Hcl & Hc & Hcalls
          & Hdo & Hst & Hdec & Hitems).
    rewrite Hl in Hself. injection Hself as <-.
    exists cl, c, req, resp, id. repeat (split; [done|]).
    rewrite Hitems. by rewrite lookup_insert_eq.
  - pose proof (Start_response_present E σ l it cl c ll la url resp None
                  Hl H H0 H1 H2 H3 H4 H5) as Hp.
    rewrite H7 in Hp. rewrite decide_True in Hp by done.
    destruct Hp as [-> ->]. split; [done|]. by rewrite lookup_insert_eq.
Qed.

Lemma Id_changes_only_on_successful_Start_witness :
  let σ := ((suite ← new_suite;
             Start (answering (created (JObject [("id", JString "abc")]))) suite)
            demo_store).2 in
  let E := answering (created (JObject [("id", JString "xyz")])) in
  Id <$> items σ !! 1%positive = Some "abc" /\
  (Start E (Some 1%positive) σ).1 = Returned None /\
  Id <$> items (Start E (Some 1%positive) σ).2 !! 1%positive = Some "xyz".
Proof.
  intros σ E. split; [reflexivity|].
  refine (proj2 (proj2 (proj2 (proj2 (proj2 (proj2 (proj2
    (Id_changes_only_on_successful_Start E σ 1%positive
      {| Id := "abc"; Name := "Suite A"; Description := ""; Parent := None;
         Parameters := None; Retry := false; StartTime := zero_Time;
         Tags := None; Type_ := TestItemSuite;
         client := Some 1%positive; launch := Some 1%positive |} _)))))))
    1%positive demo_client 1%positive demo_launch
    "https://rp.example.com/api/v1/demo/item"
    {| StatusCode := 201; Status := "201 Created";
       RespBody := Document (JObject [("id", JString "xyz")]) |} "xyz"
    _ _ _ _ _ _ _ _ _); reflexivity.
Defined.

(** C9, the claim as stated fails: after a [Start] that succeeds the
    [StartTime] field is still the zero time, not the clock reading, and the
    request body does carry the clock reading, under [start_time]. *)
Lemma Start_leaves_StartTime_counterexample :
  let session :=
    suite ← new_suite;
    Start (answering (created (JObject [("id", JString "abc")]))) suite in
  (session demo_store).1 = Returned None /\
  StartTime <$> items (session demo_store).2 !! 1%positive = Some zero_Time /\
  zero_Time <> demo_now /\
  Body <$> (fst <$> calls (session demo_store).2)
    = [BufferBody (JSONBytes (JObject
         [("name", JString "Suite A"); ("description", JString "");
          ("tags", JNull); ("start_time", JNumber 1700000000123);
          ("launch_id", JString "L1"); ("type", JString "SUITE");
          ("parameters", JNull)]))].
Proof. vm_compute. done. Qed.

(** C9 (amended): [Start] writes the [StartTime] field of no item, whether
    it succeeds or not (the field keeps the value it had, the zero time
    since [NewTestItem]).  For a valid receiver and a URL that parses,
    [Start] sends one request whose body has exactly the members [name],
    [description], [tags], [start_time], [launch_id], [type], [parameters],
    where [start_time] is the wall clock read at the call, in epoch
    milliseconds; the [StartTime] field is not transmitted: the request is
    the same whatever value that field holds. *)
Theorem Start_keeps_StartTime_and_sends_clock E σ :
  (forall ti l it, items σ !! l = Some it ->
     StartTime <$> items (Start E ti σ).2 !! l = Some (StartTime it)) /\
  (forall l self cl c ll la url,
     items σ !! l = Some self ->
     client self = Some cl -> clients σ !! cl = Some c ->
     launch self = Some ll -> launches σ !! ll = Some la ->
     match Parent self with
     | None => url = Endpoint c +:+ "/" +:+ Project c +:+ "/item"
     | Some p =>
         exists parent, items σ !! p = Some parent /\
           url = Endpoint c +:+ "/" +:+ Project c +:+ "/item/" +:+ Id parent
     end ->
     url_Parse E url = None ->
     calls (Start E (Some l) σ).2 = (calls σ ++
       [({| Method := MethodPost; URL := url;
            Header := {[ "Content-Type" := ["application/json"] ]};
            Body := BufferBody (JSONBytes (JObject
              [("name", JString (coerce_utf8 (Name self)));
               ("description", JString (coerce_utf8 (Description self)));
               ("tags", marshal_strings (Tags self));
               ("start_time", JNumber (toTimestamp (time_Now E)));
               ("launch_id", JString (coerce_utf8 (Launch_Id la)));
               ("type", JString (coerce_utf8 (Type_ self)));
               ("parameters", JNull)])) |}, Token c)])%list /\
     forall t,
       calls (Start E (Some l)
                {| items := <[l := {| Id := Id self; Name := Name self;
                                      Description := Description self;
                                      Parent := Parent self;
                                      Parameters := Parameters self;
                                      Retry := Retry self; StartTime := t;
                                      Tags := Tags self; Type_ := Type_ self;
                                      client := client self;
                                      launch := launch self |}]> (items σ);
                   launches := launches σ; clients := clients σ;
                   calls := calls σ |}).2
       = calls (Start E (Some l) σ).2).
Proof.
  split.
  - intros ti l it Hl.
    destruct (Start_frame E ti σ l it Hl) as [->|(_ & _ & id & ->)]; done.
  - intros l self cl c ll la url Hl Hcl Hc Hll Hla Hurl Hparse.
    pose proof (Start_sends E σ l self cl c ll la url Hl Hcl Hc Hll Hla Hurl Hparse) as Hsent.
    split; [exact Hsent|]. intros t. rewrite Hsent.
    match goal with |- context [<[l := ?x]> (items σ)] => set (self' := x) end.
    match goal with |- calls (Start E (Some l) ?s).2 = _ => set (σt := s) end.
    change (calls σ) with (calls σt).
    refine (Start_sends E σt l self' cl c ll la url _ Hcl Hc Hll Hla _ Hparse).
    + apply lookup_insert_eq.
    + simpl. destruct (Parent self) as [p|]; [|done].
      destruct Hurl as (parent & Hparent & ->).
      destruct (decide (l = p)) as [<-|Hne].
      * exists self'. split; [apply lookup_insert_eq|].
        rewrite Hl in Hparent. by injection Hparent as <-.
      * exists parent. split; [|done]. by rewrite lookup_insert_ne.
Qed.

Lemma Start_keeps_StartTime_and_sends_clock_witness :
  let E := answering (created (JObject [("id", JString "abc")])) in
  let σ := (new_suite demo_store).2 in
  StartTime <$> items (Start E (Some 1%positive) σ).2 !! 1%positive = Some zero_Time /\
  Body <$> (fst <$> calls (Start E (Some 1%positive) σ).2)
    = [BufferBody (JSONBytes (JObject
         [("name", JString "Suite A"); ("description", JString "");
          ("tags", JNull); ("start_time", JNumber 1700000000123);
          ("launch_id", JString "L1"); ("type", JString "SUITE");
          ("parameters", JNull)]))].
Proof.
  intros E σ. split.
  - refine (proj1 (Start_keeps_StartTime_and_sends_clock E σ) (Some 1%positive) 1%positive
      {| Id := ""; Name := "Suite A"; Description := ""; Parent := None;
         Parameters := None; Retry := false; StartTime := zero_Time;
         Tags := None; Type_ := TestItemSuite;
         client := Some 1%positive; launch := Some 1%positive |} _).
    reflexivity.
  - rewrite (proj1 (proj2 (Start_keeps_StartTime_and_sends_clock E σ) 1%positive
      {| Id := ""; Name := "Suite A"; Description := ""; Parent := None;
         Parameters := None; Retry := false; StartTime := zero_Time;
         Tags := None; Type_ := TestItemSuite;
         client := Some 1%positive; launch := Some 1%positive |}
      1%positive demo_client 1%positive demo_launch
      "https://rp.example.com/api/v1/demo/item"
      eq_refl eq_refl eq_refl eq_refl eq_refl eq_refl eq_refl)).
    reflexivity.
Defined.

(** *** [Update] *)

(** What [Update] does once [doRequest] has answered with a response: the
    two fields are rewritten exactly when nil is returned. *)
Lemma Update_response_present E σ l self cl c description tags resp err :
  items σ !! l = Some self ->
  client self = Some cl -> clients σ !! cl = Some c ->
  url_Parse E (Endpoint c +:+ "/" +:+ Project c +:+ "/item/" +:+ Id self +:+ "/update") = None ->
  (forall req token, doRequest_returns E req token = (Some resp, err)) ->
  if decide (err = None /\ StatusCode resp = StatusOK)
  then (Update E (Some l) description tags σ).1 = Returned None /\
       items (Update E (Some l) description tags σ).2
         = <[l := set_Description_Tags description tags self]> (items σ)
  else (exists e, (Update E (Some l) description tags σ).1 = Returned (Some e)) /\
       items (Update E (Some l) description tags σ).2 = items σ.
Proof.
  intros Hl Hcl Hc Hparse Hdo. unfold Update. unfold_lib.
  case_decide as Hd.
  - destruct Hd as (-> & Hs). run_M; rewrite ?Hdo in *; run_M; try done; try lia.
  - run_M; rewrite ?Hdo in *; run_M; eauto.
    all: try (exfalso; apply Hd; repeat split; try done; lia).
Qed.

(** In every case [Update] either leaves the items as they are or has
    returned nil and rewritten the two fields of its receiver. *)
Lemma Update_all_or_nothing E ti description tags σ :
  items (Update E ti description tags σ).2 = items σ \/
  exists l self, ti = Some l /\ items σ !! l = Some self /\
    (Update E ti description tags σ).1 = Returned None /\
    items (Update E ti description tags σ).2
      = <[l := set_Description_Tags description tags self]> (items σ).
Proof. unfold Update. unfold_lib. run_M; eauto 10. Qed.

(** C3, at a transport failure: [doRequest] returns no response and an
    error; [Update] does not return an error, it panics on [resp.Body].  The
    local fields are as they were. *)
Theorem Update_transport_failure :
  let σ := ((suite ← new_suite;
             Start (answering (created (JObject [("id", JString "abc")]))) suite)
            demo_store).2 in
  (Update (answering refused) (Some 1%positive) "nightly" (Some ["smoke"]) σ).1 = Panicked /\
  items (Update (answering refused) (Some 1%positive) "nightly" (Some ["smoke"]) σ).2
    = items σ.
Proof. vm_compute. done. Qed.

Example Update_ok :
  let σ := ((suite ← new_suite;
             Start (answering (created (JObject [("id", JString "abc")]))) suite)
            demo_store).2 in
  let r := Update (answering ok) (Some 1%positive) "nightly" (Some ["smoke"]) σ in
  r.1 = Returned None /\
  (fun it => (Description it, Tags it)) <$> items r.2 !! 1%positive
    = Some ("nightly", Some ["smoke"]) /\
  URL <$> (fst <$> calls r.2)
    = ["https://rp.example.com/api/v1/demo/item";
       "https://rp.example.com/api/v1/demo/item/abc/update"].
Proof. vm_compute. done. Qed.

(** *** [Finish] *)

Example Finish_scenario :
  let σ := ((suite ← new_suite;
             test ← new_test suite;
             Start (answering (created (JObject [("id", JString "abc")]))) suite;;
             Start (answering (created (JObject [("id", JString "t-1")]))) test)
            demo_store).2 in
  let r := Finish (answering ok) (Some 2%positive) "FAILED" σ in
  r.1 = Returned None /\
  last (calls r.2)
    = Some ({| Method := "PUT"; URL := "https://rp.example.com/api/v1/demo/item/t-1";
               Header := {[ "Content-Type" := ["application/json"] ]};
               Body := BufferBody (JSONBytes (JObject
                 [("end_time", JNumber 1700000000123);
                  ("status", JString "FAILED")])) |},
            "tok").
Proof. vm_compute. done. Qed.

(** [Finish] on an item that was never started is sent all the same, to a
    URL with an empty last segment. *)
Example Finish_before_Start :
  let r := Finish (answering ok) (Some 1%positive) "PASSED" (new_suite demo_store).2 in
  r.1 = Returned None /\
  URL <$> (fst <$> calls r.2) = ["https://rp.example.com/api/v1/demo/item/"].
Proof. vm_compute. done. Qed.

(** *** The order of [defer resp.Body.Close()] and the error check *)

(** An operation that has called [doRequest] and got no response panics. *)
Lemma no_response_panics E σ :
  (forall req token, (doRequest_returns E req token).1 = None) ->
  (forall ti, calls (Start E ti σ).2 <> calls σ -> (Start E ti σ).1 = Panicked) /\
  (forall ti status,
     calls (Finish E ti status σ).2 <> calls σ -> (Finish E ti status σ).1 = Panicked) /\
  (forall ti message level attachment,
     calls (Log E ti message level attachment σ).2 <> calls σ ->
     (Log E ti message level attachment σ).1 = Panicked) /\
  (forall ti description tags,
     calls (Update E ti description tags σ).2 <> calls σ ->
     (Update E ti description tags σ).1 = Panicked) /\
  (forall cp, calls (CheckConnect E cp σ).2 <> calls σ -> (CheckConnect E cp σ).1 = Panicked) /\
  (forall decode cp,
     calls (GetDashboard E decode cp σ).2 <> calls σ ->
     (GetDashboard E decode cp σ).1 = Panicked).
Proof.
  intros Hdo.
  assert (forall req token r e, doRequest_returns E req token = (Some r, e) -> False) as Hno.
  { intros req token r e H. specialize (Hdo req token). by rewrite H in Hdo. }
  repeat split; intros.
  - revert H. unfold Start. unfold_lib. run_M; try done; by (exfalso; eauto).
  - revert H. unfold Finish. unfold_lib. run_M; try done; by (exfalso; eauto).
  - revert H. unfold Log, getReqForLog, getReqForLogWithAttach. unfold_lib.
    run_M; try done; by (exfalso; eauto).
  - revert H. unfold Update. unfold_lib. run_M; try done; by (exfalso; eauto).
  - revert H. unfold CheckConnect. unfold_lib. run_M; try done; by (exfalso; eauto).
  - revert H. unfold GetDashboard. unfold_lib. run_M; try done; by (exfalso; eauto).
Qed.

(** With a response in hand no operation panics after the call. *)
Lemma response_present_returns E σ :
  (forall req token, is_Some (doRequest_returns E req token).1) ->
  (forall ti, calls (Start E ti σ).2 <> calls σ -> (Start E ti σ).1 <> Panicked) /\
  (forall ti status,
     calls (Finish E ti status σ).2 <> calls σ -> (Finish E ti status σ).1 <> Panicked) /\
  (forall ti message level attachment,
     calls (Log E ti message level attachment σ).2 <> calls σ ->
     (Log E ti message level attachment σ).1 <> Panicked) /\
  (forall ti description tags,
     calls (Update E ti description tags σ).2 <> calls σ ->
     (Update E ti description tags σ).1 <> Panicked) /\
  (forall cp, calls (CheckConnect E cp σ).2 <> calls σ -> (CheckConnect E cp σ).1 <> Panicked) /\
  (forall decode cp,
     calls (GetDashboard E decode cp σ).2 <> calls σ ->
     (GetDashboard E decode cp σ).1 <> Panicked).
Proof.
  intros Hdo.
  assert (forall req token e, doRequest_returns E req token = (None, e) -> False) as Hno.
  { intros req token e H. specialize (Hdo req token). rewrite H in Hdo. by destruct Hdo. }
  repeat split; intros ? **.
  - revert H. unfold Start. unfold_lib. run_M; try done; by (exfalso; eauto).
  - revert H. unfold Finish. unfold_lib. run_M; try done; by (exfalso; eauto).
  - revert H. unfold Log, getReqForLog, getReqForLogWithAttach. unfold_lib.
    run_M; try done; by (exfalso; eauto).
  - revert H. unfold Update. unfold_lib. run_M; try done; by (exfalso; eauto).
  - revert H. unfold CheckConnect. unfold_lib. run_M; try done; by (exfalso; eauto).
  - revert H. unfold GetDashboard. unfold_lib. run_M; try done; by (exfalso; eauto).
Qed.

(** C8, at a transport failure: [doRequest] returns no response and an
    error; each of the six operations panics on [resp.Body] instead of
    returning the error to its caller. *)
Theorem transport_failure_is_a_panic :
  forall decode,
  let E := answering refused in
  let σ := ((suite ← new_suite;
             Start (answering (created (JObject [("id", JString "abc")]))) suite)
            demo_store).2 in
  ((suite ← new_suite; Start E suite) demo_store).1 = Panicked /\
  (Finish E (Some 1%positive) "PASSED" σ).1 = Panicked /\
  (Log E (Some 1%positive) "boom" "error" None σ).1 = Panicked /\
  (Log E (Some 1%positive) "boom" "error" (Some screenshot) σ).1 = Panicked /\
  (Update E (Some 1%positive) "nightly" None σ).1 = Panicked /\
  (CheckConnect E (Some 1%positive) σ).1 = Panicked /\
  (GetDashboard E decode (Some 1%positive) σ).1 = Panicked.
Proof. intros decode. vm_compute. done. Qed.

(** *** [GetActivity] *)

(** C6: [GetActivity] returns a nil activity and a nil error, for every
    receiver and in every state, and calls nothing: to its caller it has
    succeeded, with no activity fetched. *)
Theorem GetActivity_returns_nil_nil ti σ :
  GetActivity ti σ = (Returned (None, None), σ).
Proof. reflexivity. Qed.

(** *** [Log] *)

Example Log_scenario :
  let σ := ((suite ← new_suite;
             Start (answering (created (JObject [("id", JString "abc")]))) suite)
            demo_store).2 in
  let r := Log (answering (created JNull)) (Some 1%positive) "boom" "error" None σ in
  r.1 = Returned None /\
  last (calls r.2)
    = Some ({| Method := "POST"; URL := "https://rp.example.com/api/v1/demo/log";
               Header := {[ "Content-Type" := ["application/json"] ]};
               Body := BufferBody (JSONBytes (JObject
                 [("item_id", JString "abc"); ("message", JString "boom");
                  ("level", JString "error"); ("time", JNumber 1700000000123)])) |},
            "tok").
Proof. vm_compute. done. Qed.

(** A reader that fails stops [Log] before anything is sent. *)
Example Log_unreadable_attachment :
  let σ := (new_suite demo_store).2 in
  let broken :=
    {| Attachment_Name := "shot.png";
       Data := Some {| reader_data := RawBytes "PN";
                       reader_err := Some (External "unexpected EOF") |};
       MimeType := "image/png" |} in
  let r := Log (answering (created JNull)) (Some 1%positive) "boom" "error" (Some broken) σ in
  r.1 = Returned (Some (Wrapf (External "unexpected EOF") "failed to copy file writer" [])) /\
  calls r.2 = [].
Proof. vm_compute. done. Qed.

(** C2: for a receiver whose client pointer is valid, a log URL that parses
    and, when there is an attachment, a reader that reads to its end, [Log]
    hands [doRequest] exactly one request, a POST to
    [{endpoint}/{project}/log].  Without an attachment its body is one JSON
    object with the four members [item_id], [message], [level], [time]. With
    an attachment its body is a closed multipart buffer of exactly two parts
    in this order: the part named [json_request_part], of content type
    [application/json], holding a JSON array of the one object
    [{file: {name}, item_id, level, message, time}]; then the part named
    [file], with the attachment's file name, its mime type and the bytes read
    from it. *)
Theorem Log_request_encoding E σ l self cl c message level attachment :
  items σ !! l = Some self ->
  client self = Some cl -> clients σ !! cl = Some c ->
  url_Parse E (Endpoint c +:+ "/" +:+ Project c +:+ "/log") = None ->
  (forall a, attachment = Some a ->
     exists data, Data a = Some {| reader_data := data; reader_err := None |}) ->
  exists req,
    calls (Log E (Some l) message level attachment σ).2
      = (calls σ ++ [(req, Token c)])%list /\
    Method req = MethodPost /\
    URL req = Endpoint c +:+ "/" +:+ Project c +:+ "/log" /\
    match attachment with
    | None =>
        Header req !! "Content-Type" = Some ["application/json"] /\
        Body req = BufferBody (JSONBytes (JObject
          [("item_id", JString (coerce_utf8 (Id self)));
           ("message", JString (coerce_utf8 message));
           ("level", JString (coerce_utf8 level));
           ("time", JNumber (toTimestamp (time_Now E)))]))
    | Some a =>
        exists data json_part file_part,
          Data a = Some {| reader_data := data; reader_err := None |} /\
          Header req !! "Content-Type"
            = Some ["multipart/form-data; boundary=" +:+ randomBoundary E] /\
          Body req = MultipartBody
            {| boundary := randomBoundary E;
               parts := [json_part; file_part];
               closed := true |} /\
          part_header json_part !! "Content-Disposition"
            = Some ["form-data; name=" +:+ dquote +:+ "json_request_part" +:+ dquote] /\
          part_header json_part !! "Content-Type" = Some ["application/json"] /\
          part_body json_part = [JSONBytes (JArray [JObject
            [("file", JObject [("name", JString (coerce_utf8 (Attachment_Name a)))]);
             ("item_id", JString (coerce_utf8 (Id self)));
             ("level", JString (coerce_utf8 level));
             ("message", JString (coerce_utf8 message));
             ("time", JNumber (toTimestamp (time_Now E)))]])] /\
          part_header file_part !! "Content-Disposition"
            = Some ["form-data; name=" +:+ dquote +:+ "file" +:+ dquote +:+
                    "; filename=" +:+ dquote +:+ Attachment_Name a +:+ dquote] /\
          part_header file_part !! "Content-Type" = Some [MimeType a] /\
          part_body file_part = [data]
    end.
Proof.
  intros Hl Hcl Hc Hparse Hdata.
  destruct attachment as [a|].
  - destruct (Hdata a eq_refl) as [data Ha].
    unfold Log, getReqForLogWithAttach. unfold_lib. rewrite Ha.
    run_M; (eexists; split; [done|]); (split; [done|]); (split; [done|]);
      exists data; do 2 eexists; repeat split.
  - unfold Log, getReqForLog. unfold_lib.
    run_M; (eexists; split; [done|]); done.
Qed.

Lemma Log_request_encoding_witness :
  let E := answering (created JNull) in
  let σ := ((suite ← new_suite;
             Start (answering (created (JObject [("id", JString "abc")]))) suite)
            demo_store).2 in
  exists req,
    calls (Log E (Some 1%positive) "boom" "error" (Some screenshot) σ).2
      = (calls σ ++ [(req, "tok")])%list /\
    URL req = "https://rp.example.com/api/v1/demo/log" /\
    exists json_part file_part,
      Body req = MultipartBody
        {| boundary := "5f2a9c1e07b3"; parts := [json_part; file_part]; closed := true |} /\
      part_body file_part = [RawBytes "PNG"].
Proof.
  intros E σ.
  destruct (Log_request_encoding E σ 1%positive
              {| Id := "abc"; Name := "Suite A"; Description := ""; Parent := None;
                 Parameters := None; Retry := false; StartTime := zero_Time;
                 Tags := None; Type_ := "SUITE";
                 client := Some 1%positive; launch := Some 1%positive |}
              1%positive demo_client "boom" "error" (Some screenshot))
    as (req & Hcalls & _ & Hurl & data & jp & fp & Hdata & _ & Hbody & _ & _ & _ & _ & _ & Hfile);
    try reflexivity.
  - intros a [= <-]. eexists. reflexivity.
  - exists req. split; [exact Hcalls|]. split; [exact Hurl|].
    exists jp, fp. split; [exact Hbody|].
    rewrite Hfile. injection Hdata as <-. reflexivity.
Defined.

(** * Further properties *)

(** ** [NewClient] on every input *)

Section more_string_facts.

Implicit Types s t p : string.

Lemma length_slice_to_min n s :
  String.length (strings.slice_to n s) = (n `min` String.length s)%nat.
Proof.
  revert s. induction n as [|n IH]; intros [|c s]; simpl; try done.
  by rewrite IH.
Qed.

Lemma slice_to_app_le n s t :
  (n <= String.length s)%nat -> strings.slice_to n (s +:+ t) = strings.slice_to n s.
Proof.
  revert s. induction n as [|n IH]; intros s Hn.
  - by destruct s, t.
  - destruct s as [|c s]; simpl in Hn; [lia|].
    rewrite append_cons. simpl. rewrite IH; [done|lia].
Qed.

Lemma slice_to_all s : strings.slice_to (String.length s) s = s.
Proof. induction s as [|c s IH]; simpl; [done|]. by rewrite IH. Qed.

Lemma HasPrefix_refl s : strings.HasPrefix s s = true.
Proof.
  unfold strings.HasPrefix. rewrite slice_to_all, String.eqb_refl, andb_true_r.
  by apply Nat.leb_le.
Qed.

Lemma HasPrefix_spec s p :
  strings.HasPrefix s p = true <->
  (String.length p <= String.length s)%nat /\ strings.slice_to (String.length p) s = p.
Proof.
  unfold strings.HasPrefix. rewrite andb_true_iff, Nat.leb_le, String.eqb_eq. done.
Qed.

Lemma HasPrefix_app_l s t p :
  strings.HasPrefix s p = true -> strings.HasPrefix (s +:+ t) p = true.
Proof.
  rewrite !HasPrefix_spec. intros [Hlen Heq]. split.
  - rewrite length_append. lia.
  - by rewrite slice_to_app_le.
Qed.

Lemma Contains_app_r p s sub :
  strings.Contains s sub = true -> strings.Contains (p +:+ s) sub = true.
Proof.
  intros H. induction p as [|c p IH]; [done|].
  rewrite append_cons. simpl. rewrite IH. apply orb_true_r.
Qed.

Lemma Contains_app_l s t sub :
  strings.Contains s sub = true -> strings.Contains (s +:+ t) sub = true.
Proof.
  induction s as [|c s IH]; simpl.
  - rewrite orb_false_r. intros H%(HasPrefix_app_l _ t). rewrite append_nil_l in *.
    destruct t; simpl; by rewrite H.
  - intros [H|H]%orb_true_iff.
    + apply (HasPrefix_app_l _ t) in H. rewrite append_cons in H. by rewrite H.
    + rewrite (IH H). apply orb_true_r.
Qed.

Lemma Contains_refl s : strings.Contains s s = true.
Proof. destruct s; cbn [strings.Contains]; by rewrite HasPrefix_refl. Qed.

(** A proper extension of [p] still starts with [p] after a cut that leaves
    at least [p]. *)
Lemma HasPrefix_TrimSuffix_proper s p :
  strings.HasPrefix s p = true -> s <> p ->
  strings.HasPrefix (strings.TrimSuffix s "/") p = true.
Proof.
  intros Hp Hne. unfold strings.TrimSuffix.
  destruct (strings.HasSuffix s "/"); [|done].
  apply HasPrefix_spec in Hp as [Hlen Heq].
  assert (String.length p <> String.length s) as Hlt.
  { intros Hl. rewrite Hl, slice_to_all in Heq. done. }
  apply HasPrefix_spec. rewrite length_slice_to_min. simpl. split; [lia|].
  rewrite slice_to_slice_to by lia. done.
Qed.

Lemma TrimSuffix_no_suffix s t :
  strings.HasSuffix s t = false -> strings.TrimSuffix s t = s.
Proof. unfold strings.TrimSuffix. by intros ->. Qed.

End more_string_facts.

Lemma Endpoint_contains_version_path endpoint project token apiVersion :
  strings.Contains (Endpoint (NewClient endpoint project token apiVersion)) "/api/v" = true.
Proof.
  unfold NewClient. cbv zeta. cbn [Endpoint].
  destruct (strings.Contains (strings.TrimSuffix endpoint "/") "/api/v") eqn:Hc;
    cbn [negb].
  - by apply Contains_app_r.
  - apply Contains_app_l, Contains_app_r, Contains_refl.
Qed.

Lemma Endpoint_starts_with_scheme endpoint project token apiVersion :
  strings.HasPrefix (Endpoint (NewClient endpoint project token apiVersion)) "https://"
  || strings.HasPrefix (Endpoint (NewClient endpoint project token apiVersion)) "http://"
  = true.
Proof.
  unfold NewClient. cbv zeta. cbn [Endpoint].
  set (e := strings.TrimSuffix endpoint "/").
  destruct (strings.HasPrefix e "https://") eqn:Hs;
    [|destruct (strings.HasPrefix e "http://") eqn:Hh];
    destruct (strings.Contains e "/api/v"); cbn [negb andb];
    rewrite ?append_nil_l, ?append_assoc.
  - by rewrite Hs.
  - by rewrite (HasPrefix_app_l _ _ _ Hs).
  - rewrite Hh. apply orb_true_r.
  - rewrite (HasPrefix_app_l _ _ _ Hh). apply orb_true_r.
  - by rewrite HasPrefix_app.
  - by rewrite HasPrefix_app.
Qed.

(** X1: whatever the arguments, the Endpoint of a new client starts with
    [https://] or [http://] and contains the version path [/api/v] (kept
    from the raw endpoint or appended). *)
Theorem NewClient_Endpoint_invariant endpoint project token apiVersion :
  (strings.HasPrefix (Endpoint (NewClient endpoint project token apiVersion)) "https://" = true
   \/ strings.HasPrefix (Endpoint (NewClient endpoint project token apiVersion)) "http://" = true)
  /\ strings.Contains (Endpoint (NewClient endpoint project token apiVersion)) "/api/v" = true.
Proof.
  split.
  - apply orb_true_iff, Endpoint_starts_with_scheme.
  - apply Endpoint_contains_version_path.
Qed.

(** X2: normalisation is idempotent.  An Endpoint produced by [NewClient]
    that does not end in a slash is returned unchanged when it is given to
    [NewClient] again, whatever version is asked for the second time. *)
Theorem NewClient_idempotent endpoint project token apiVersion project' token' apiVersion' :
  strings.HasSuffix (Endpoint (NewClient endpoint project token apiVersion)) "/" = false ->
  Endpoint (NewClient (Endpoint (NewClient endpoint project token apiVersion))
              project' token' apiVersion')
  = Endpoint (NewClient endpoint project token apiVersion).
Proof.
  intros Hslash.
  pose proof (Endpoint_starts_with_scheme endpoint project token apiVersion) as Hscheme.
  pose proof (Endpoint_contains_version_path endpoint project token apiVersion) as Hpath.
  set (e := Endpoint (NewClient endpoint project token apiVersion)) in *.
  unfold NewClient at 1. cbv zeta. cbn [Endpoint].
  rewrite (TrimSuffix_no_suffix _ _ Hslash), Hpath. cbn [negb].
  apply orb_true_iff in Hscheme as [->| ->]; cbn [negb andb];
    rewrite ?andb_false_r; apply append_nil_l.
Qed.

Lemma NewClient_idempotent_witness :
  strings.HasSuffix (Endpoint (NewClient "rp.example.com/" "demo" "tok" 0)) "/" = false /\
  Endpoint (NewClient (Endpoint (NewClient "rp.example.com/" "demo" "tok" 0)) "other" "t2" 7)
  = "https://rp.example.com/api/v1".
Proof.
  split; [reflexivity|].
  rewrite (NewClient_idempotent "rp.example.com/" "demo" "tok" 0 "other" "t2" 7); reflexivity.
Defined.

(** X3: a scheme given by the caller is kept.  When the raw endpoint starts
    with [http://] (or [https://]) and something follows the scheme, the
    Endpoint starts with that same scheme: plain http is not turned into
    https. *)
Theorem NewClient_keeps_given_scheme endpoint project token apiVersion scheme :
  scheme = "http://" \/ scheme = "https://" ->
  strings.HasPrefix endpoint scheme = true ->
  endpoint <> scheme ->
  strings.HasPrefix (Endpoint (NewClient endpoint project token apiVersion)) scheme = true.
Proof.
  intros Hscheme Hp Hne.
  pose proof (HasPrefix_TrimSuffix_proper _ _ Hp Hne) as He.
  unfold NewClient. cbv zeta. cbn [Endpoint].
  set (e := strings.TrimSuffix endpoint "/") in *.
  assert (negb (strings.HasPrefix e "https://") && negb (strings.HasPrefix e "http://")
          = false) as ->.
  { destruct Hscheme; subst scheme; rewrite He; cbn [negb andb];
      [apply andb_false_r|done]. }
  rewrite append_nil_l.
  destruct (negb (strings.Contains e "/api/v")); [|done].
  by apply HasPrefix_app_l, HasPrefix_app_l.
Qed.

Lemma NewClient_keeps_given_scheme_witness :
  Endpoint (NewClient "http://rp.local:8080/" "demo" "tok" 2)
    = "http://rp.local:8080/api/v2" /\
  strings.HasPrefix (Endpoint (NewClient "http://rp.local:8080/" "demo" "tok" 2)) "http://"
    = true.
Proof.
  split; [reflexivity|].
  apply (NewClient_keeps_given_scheme "http://rp.local:8080/" "demo" "tok" 2 "http://").
  - exact (or_introl eq_refl).
  - reflexivity.
  - discriminate.
Defined.

(** ** What every operation keeps *)

(** X4: no operation retries.  Each of [Start], [Finish], [Log], [Update],
    [CheckConnect] and [GetDashboard] leaves the earlier calls to [doRequest]
    in place and adds at most one; [NewTestItem] and [GetActivity] add
    none. *)
Theorem at_most_one_request E σ :
  (forall ti, calls σ `prefix_of` calls (Start E ti σ).2 /\
     (length (calls (Start E ti σ).2) <= S (length (calls σ)))%nat) /\
  (forall ti status, calls σ `prefix_of` calls (Finish E ti status σ).2 /\
     (length (calls (Finish E ti status σ).2) <= S (length (calls σ)))%nat) /\
  (forall ti message level attachment,
     calls σ `prefix_of` calls (Log E ti message level attachment σ).2 /\
     (length (calls (Log E ti message level attachment σ).2) <= S (length (calls σ)))%nat) /\
  (forall ti description tags,
     calls σ `prefix_of` calls (Update E ti description tags σ).2 /\
     (length (calls (Update E ti description tags σ).2) <= S (length (calls σ)))%nat) /\
  (forall cp, calls σ `prefix_of` calls (CheckConnect E cp σ).2 /\
     (length (calls (CheckConnect E cp σ).2) <= S (length (calls σ)))%nat) /\
  (forall decode cp, calls σ `prefix_of` calls (GetDashboard E decode cp σ).2 /\
     (length (calls (GetDashboard E decode cp σ).2) <= S (length (calls σ)))%nat) /\
  (forall launch name description itemType tags parent,
     calls (NewTestItem launch name description itemType tags parent σ).2 = calls σ) /\
  (forall ti, calls (GetActivity ti σ).2 = calls σ).
Proof.
  assert (forall (l : list (Request * string)) x,
            l `prefix_of` (l ++ [x])%list /\ (length (l ++ [x])%list <= S (length l))%nat)
    as Hone.
  { intros l x. split; [by eexists|]. rewrite length_app. simpl. lia. }
  assert (forall l : list (Request * string),
            l `prefix_of` l /\ (length l <= S (length l))%nat) as Hnone.
  { intros l. split; [done|lia]. }
  repeat split; intros.
  1,2: unfold Start; unfold_lib; run_M; first [apply Hnone | apply Hone].
  1,2: unfold Finish; unfold_lib; run_M; first [apply Hnone | apply Hone].
  1,2: unfold Log, getReqForLog, getReqForLogWithAttach; unfold_lib; run_M;
       first [apply Hnone | apply Hone].
  1,2: unfold Update; unfold_lib; run_M; first [apply Hnone | apply Hone].
  1,2: unfold CheckConnect; unfold_lib; run_M; first [apply Hnone | apply Hone].
  1,2: unfold GetDashboard; unfold_lib; run_M; first [apply Hnone | apply Hone].
  - unfold NewTestItem. run_M; done.
Qed.

(** X5: the launches and the clients are never written: every operation
    leaves both maps as they are; and [Finish], [Log], [CheckConnect],
    [GetDashboard] and [GetActivity] leave the test items as they are
    too. *)
Theorem operations_frame E σ :
  (forall ti, launches (Start E ti σ).2 = launches σ /\ clients (Start E ti σ).2 = clients σ) /\
  (forall ti description tags,
     launches (Update E ti description tags σ).2 = launches σ /\
     clients (Update E ti description tags σ).2 = clients σ) /\
  (forall launch name description itemType tags parent,
     launches (NewTestItem launch name description itemType tags parent σ).2 = launches σ /\
     clients (NewTestItem launch name description itemType tags parent σ).2 = clients σ) /\
  (forall ti status,
     items (Finish E ti status σ).2 = items σ /\
     launches (Finish E ti status σ).2 = launches σ /\
     clients (Finish E ti status σ).2 = clients σ) /\
  (forall ti message level attachment,
     items (Log E ti message level attachment σ).2 = items σ /\
     launches (Log E ti message level attachment σ).2 = launches σ /\
     clients (Log E ti message level attachment σ).2 = clients σ) /\
  (forall cp,
     items (CheckConnect E cp σ).2 = items σ /\
     launches (CheckConnect E cp σ).2 = launches σ /\
     clients (CheckConnect E cp σ).2 = clients σ) /\
  (forall decode cp,
     items (GetDashboard E decode cp σ).2 = items σ /\
     launches (GetDashboard E decode cp σ).2 = launches σ /\
     clients (GetDashboard E decode cp σ).2 = clients σ).
Proof.
  clauses; intros.
  - unfold Start. unfold_lib. run_M; done.
  - unfold Update. unfold_lib. run_M; done.
  - unfold NewTestItem. run_M; done.
  - unfold Finish. unfold_lib. run_M; done.
  - unfold Log, getReqForLog, getReqForLogWithAttach. unfold_lib. run_M; done.
  - unfold CheckConnect. unfold_lib. run_M; done.
  - unfold GetDashboard. unfold_lib. run_M; done.
Qed.

(** ** What [Start] and [Update] write *)

(** X6: [Start] writes nothing but [Id], and [Update] nothing but
    [Description] and [Tags]: after either, whether it succeeded or not,
    every item is still in the store with its name, type, parent, client,
    launch, parameters, retry flag and start time; [Start] also keeps its
    description and tags, and [Update] its id. *)
Theorem item_fields_kept E σ l it :
  items σ !! l = Some it ->
  (forall ti, exists it',
     items (Start E ti σ).2 !! l = Some it' /\
     Name it' = Name it /\ Type_ it' = Type_ it /\ Parent it' = Parent it /\
     client it' = client it /\ launch it' = launch it /\
     Parameters it' = Parameters it /\ Retry it' = Retry it /\
     StartTime it' = StartTime it /\
     Description it' = Description it /\ Tags it' = Tags it) /\
  (forall ti description tags, exists it',
     items (Update E ti description tags σ).2 !! l = Some it' /\
     Name it' = Name it /\ Type_ it' = Type_ it /\ Parent it' = Parent it /\
     client it' = client it /\ launch it' = launch it /\
     Parameters it' = Parameters it /\ Retry it' = Retry it /\
     StartTime it' = StartTime it /\
     Id it' = Id it).
Proof.
  intros Hl. split; intros.
  - destruct (Start_frame E ti σ l it Hl) as [->|(_ & _ & id & ->)];
      eexists; (split; [done|]); done.
  - unfold Update. unfold_lib. run_M; try by (eexists; split; [done|]).
    all: destruct (decide (l = p)) as [->|]; simplify_map_eq;
      eexists; (split; [done|]); done.
Qed.

Lemma item_fields_kept_witness :
  let σ := ((suite ← new_suite; new_test suite) demo_store).2 in
  exists it',
    items (Start (answering (created (JObject [("id", JString "abc")])))
             (Some 1%positive) σ).2 !! 2%positive = Some it' /\
    Name it' = "Test 1" /\ Type_ it' = TestItemTest /\ Parent it' = Some 1%positive.
Proof.
  intros σ.
  destruct (proj1 (item_fields_kept
      (answering (created (JObject [("id", JString "abc")]))) σ 2%positive
      {| Id := ""; Name := "Test 1"; Description := ""; Parent := Some 1%positive;
         Parameters := None; Retry := false; StartTime := zero_Time;
         Tags := None; Type_ := TestItemTest;
         client := Some 1%positive; launch := Some 1%positive |} eq_refl)
      (Some 1%positive)) as (it' & Hit & Hn & Ht & Hp & _).
  exists it'. split; [exact Hit|]. split; [exact Hn|]. split; [exact Ht|exact Hp].
Defined.

(** X7: a [Start] that does not return nil (it returned an error, or it
    panicked) has written nothing: the test items are exactly as before. *)
Theorem Start_failure_writes_nothing E ti σ :
  (Start E ti σ).1 <> Returned None ->
  items (Start E ti σ).2 = items σ.
Proof. unfold Start. unfold_lib. run_M; done. Qed.

Lemma Start_failure_writes_nothing_witness :
  let E := answering (Some {| StatusCode := 500; Status := "500 Internal Server Error";
                              RespBody := Document (JObject [("id", JString "abc")]) |}, None) in
  let σ := (new_suite demo_store).2 in
  (Start E (Some 1%positive) σ).1
    = Returned (Some (Errorf "failed with status %s" [ArgString "500 Internal Server Error"])) /\
  items (Start E (Some 1%positive) σ).2 = items σ.
Proof.
  intros E σ. split; [reflexivity|].
  apply (Start_failure_writes_nothing E (Some 1%positive) σ). discriminate.
Defined.

(** X8: what a nil result of [Start] means.  When [Start] returns nil, the
    receiver and its client pointer were valid, exactly one request went to
    [doRequest] with the client's token, the answer was a
    response of status 201 with a nil error, its body decoded without error,
    and the only change to the items is that the receiver's [Id] is the
    decoded id. *)
Theorem Start_nil_means_created E ti σ :
  (Start E ti σ).1 = Returned None ->
  exists l self cl c req resp id,
    ti = Some l /\ items σ !! l = Some self /\
    client self = Some cl /\ clients σ !! cl = Some c /\
    calls (Start E ti σ).2 = (calls σ ++ [(req, Token c)])%list /\
    doRequest_returns E req (Token c) = (Some resp, None) /\
    StatusCode resp = 201 /\
    Decode_id (RespBody resp) "" = (id, None) /\
    items (Start E ti σ).2 = <[l := set_Id id self]> (items σ).
Proof.
  unfold Start. unfold_lib. run_M; try done; intros _.
  all: do 7 eexists; repeat (split; [done|]).
  all: repeat split; try done; try lia.
  all: first [ by apply Z.eqb_eq, negb_false_iff
             | by destruct (Decode_id _ _); simplify_eq/= ].
Qed.

Lemma Start_nil_means_created_witness :
  let E := answering (created (JObject [("id", JString "abc")])) in
  let σ := (new_suite demo_store).2 in
  exists req resp,
    calls (Start E (Some 1%positive) σ).2 = [(req, "tok")] /\
    doRequest_returns E req "tok" = (Some resp, None) /\
    StatusCode resp = 201.
Proof.
  intros E σ.
  destruct (Start_nil_means_created E (Some 1%positive) σ eq_refl)
    as (l & self & cl & c & req & resp & id & Hti & Hl & Hcl & Hc & Hcalls & Hdo & Hst & _).
  injection Hti as <-.
  assert (self = {| Id := ""; Name := "Suite A"; Description := ""; Parent := None;
                    Parameters := None; Retry := false; StartTime := zero_Time;
                    Tags := None; Type_ := TestItemSuite;
                    client := Some 1%positive; launch := Some 1%positive |}) as ->.
  { apply (inj Some). rewrite <-Hl. reflexivity. }
  injection Hcl as <-.
  assert (c = demo_client) as ->.
  { apply (inj Some). rewrite <-Hc. reflexivity. }
  exists req, resp. split; [exact Hcalls|]. split; [exact Hdo | exact Hst].
Defined.

(** ** The id in the response *)



(** X10: an [id] of the wrong JSON type is an error, not an empty id.  When
    the answer is a 201 whose body is a JSON object in which some member
    [id] is a number, a boolean, an array or an object, [Start] returns an
    error and writes nothing, even if another [id] member is a string. *)
Theorem Start_rejects_mistyped_id E σ l self cl c ll la url resp members k j :
  items σ !! l = Some self ->
  client self = Some cl -> clients σ !! cl = Some c ->
  launch self = Some ll -> launches σ !! ll = Some la ->
  match Parent self with
  | None => url = Endpoint c +:+ "/" +:+ Project c +:+ "/item"
  | Some p =>
      exists parent, items σ !! p = Some parent /\
        url = Endpoint c +:+ "/" +:+ Project c +:+ "/item/" +:+ Id parent
  end ->
  url_Parse E url = None ->
  (forall req token, doRequest_returns E req token = (Some resp, None)) ->
  StatusCode resp = 201 ->
  RespBody resp = Document (JObject members) ->
  (k, j) ∈ members -> key_selects "id" k = true ->
  match j with JNull | JString _ => False | _ => True end ->
  (exists e, (Start E (Some l) σ).1 = Returned (Some e)) /\
  items (Start E (Some l) σ).2 = items σ.
Proof.
  intros Hl Hcl Hc Hll Hla Hurl Hparse Hdo Hstatus Hbody Hin Hk Hj.
  pose proof (Start_response_present E σ l self cl c ll la url resp None
                Hl Hcl Hc Hll Hla Hurl Hparse Hdo) as H.
  rewrite decide_False in H; [done|].
  intros (_ & _ & Hdec). rewrite Hbody in Hdec. simpl in Hdec.
  by eapply decode_id_mistyped.
Qed.

Lemma Start_rejects_mistyped_id_witness :
  let body := JObject [("id", JNumber 42); ("id", JString "abc")] in
  let E := answering (created body) in
  let σ := (new_suite demo_store).2 in
  (exists e, (Start E (Some 1%positive) σ).1 = Returned (Some e)) /\
  items (Start E (Some 1%positive) σ).2 = items σ.
Proof.
  intros body E σ.
  apply (Start_rejects_mistyped_id E σ 1%positive
           {| Id := ""; Name := "Suite A"; Description := ""; Parent := None;
              Parameters := None; Retry := false; StartTime := zero_Time;
              Tags := None; Type_ := TestItemSuite;
              client := Some 1%positive; launch := Some 1%positive |}
           1%positive demo_client 1%positive demo_launch
           "https://rp.example.com/api/v1/demo/item"
           {| StatusCode := 201; Status := "201 Created"; RespBody := Document body |}
           [("id", JNumber 42); ("id", JString "abc")] "id" (JNumber 42));
    try reflexivity; try exact I.
  apply list_elem_of_here.
Defined.

(** ** One request, one answer *)

(** X11: [Finish] with a response in hand.  For a valid receiver and a URL
    that parses, [Finish] sends one PUT to [{endpoint}/{project}/item/{Id}]
    (the receiver's current [Id], empty if it was never started) whose body
    is [{end_time, status}] with the status string as given, unchecked.  It
    returns the transport error wrapped if there is one, else nil exactly
    when the status code is 200, else an error carrying the status text. *)
Theorem Finish_exchange E σ l self cl c status resp err :
  items σ !! l = Some self ->
  client self = Some cl -> clients σ !! cl = Some c ->
  url_Parse E (Endpoint c +:+ "/" +:+ Project c +:+ "/item/" +:+ Id self) = None ->
  (forall req token, doRequest_returns E req token = (Some resp, err)) ->
  calls (Finish E (Some l) status σ).2 = (calls σ ++
    [({| Method := MethodPut;
         URL := Endpoint c +:+ "/" +:+ Project c +:+ "/item/" +:+ Id self;
         Header := {[ "Content-Type" := ["application/json"] ]};
         Body := BufferBody (JSONBytes (JObject
           [("end_time", JNumber (toTimestamp (time_Now E)));
            ("status", JString (coerce_utf8 status))])) |}, Token c)])%list /\
  (Finish E (Some l) status σ).1 = Returned
    match err with
    | Some e =>
        Some (Wrapf e "failed to execute PUT request to %s"
                [ArgURL (Endpoint c +:+ "/" +:+ Project c +:+ "/item/" +:+ Id self)])
    | None =>
        if StatusCode resp =? 200 then None
        else Some (Errorf "failed with status %s" [ArgString (Status resp)])
    end.
Proof.
  intros Hl Hcl Hc Hparse Hdo. unfold Finish. unfold_lib.
  run_M; rewrite ?Hdo in *; run_M; try done.
  all: split; [done|]; by destruct (StatusCode _ =? _).
Qed.

Lemma Finish_exchange_witness :
  let E := answering (Some {| StatusCode := 404; Status := "404 Not Found";
                              RespBody := Unreadable (External "EOF") |}, None) in
  let σ := (new_suite demo_store).2 in
  URL <$> (fst <$> calls (Finish E (Some 1%positive) "PASSED" σ).2)
    = ["https://rp.example.com/api/v1/demo/item/"] /\
  (Finish E (Some 1%positive) "PASSED" σ).1
    = Returned (Some (Errorf "failed with status %s" [ArgString "404 Not Found"])).
Proof.
  intros E σ.
  destruct (Finish_exchange E σ 1%positive
              {| Id := ""; Name := "Suite A"; Description := ""; Parent := None;
                 Parameters := None; Retry := false; StartTime := zero_Time;
                 Tags := None; Type_ := TestItemSuite;
                 client := Some 1%positive; launch := Some 1%positive |}
              1%positive demo_client "PASSED"
              {| StatusCode := 404; Status := "404 Not Found";
                 RespBody := Unreadable (External "EOF") |} None)
    as [Hcalls Hout]; try reflexivity.
  split; [rewrite Hcalls; reflexivity | exact Hout].
Defined.

(** X12: [Update] with a response in hand.  For a valid receiver and a URL
    that parses, [Update] sends one PUT to
    [{endpoint}/{project}/item/{Id}/update] whose body is
    [{description, tags}], a nil tag slice being written as [null].  It
    returns the transport error wrapped if there is one, else nil exactly
    when the status code is 200; the items are rewritten (description and
    tags of the receiver) exactly when nil is returned. *)
Theorem Update_exchange E σ l self cl c description tags resp err :
  items σ !! l = Some self ->
  client self = Some cl -> clients σ !! cl = Some c ->
  url_Parse E (Endpoint c +:+ "/" +:+ Project c +:+ "/item/" +:+ Id self +:+ "/update") = None ->
  (forall req token, doRequest_returns E req token = (Some resp, err)) ->
  calls (Update E (Some l) description tags σ).2 = (calls σ ++
    [({| Method := MethodPut;
         URL := Endpoint c +:+ "/" +:+ Project c +:+ "/item/" +:+ Id self +:+ "/update";
         Header := {[ "Content-Type" := ["application/json"] ]};
         Body := BufferBody (JSONBytes (JObject
           [("description", JString (coerce_utf8 description));
            ("tags", match tags with
                     | None => JNull
                     | Some ts => JArray (marshal_string <$> ts)
                     end)])) |}, Token c)])%list /\
  (Update E (Some l) description tags σ).1 = Returned
    match err with
    | Some e =>
        Some (Wrapf e "failed to execute PUT request to %s"
                [ArgURL (Endpoint c +:+ "/" +:+ Project c +:+ "/item/" +:+ Id self
                         +:+ "/update")])
    | None =>
        if StatusCode resp =? 200 then None
        else Some (Errorf "failed with status %s" [ArgString (Status resp)])
    end /\
  items (Update E (Some l) description tags σ).2 =
    match err with
    | None =>
        if StatusCode resp =? 200
        then <[l := set_Description_Tags description tags self]> (items σ)
        else items σ
    | Some _ => items σ
    end.
Proof.
  intros Hl Hcl Hc Hparse Hdo. unfold Update. unfold_lib.
  run_M; rewrite ?Hdo in *; run_M; try done.
  all: split; [done|]; by destruct (StatusCode _ =? _).
Qed.

Lemma Update_exchange_witness :
  let σ := ((suite ← new_suite;
             Start (answering (created (JObject [("id", JString "abc")]))) suite)
            demo_store).2 in
  let r := Update (answering ok) (Some 1%positive) "nightly" None σ in
  r.1 = Returned None /\
  Body <$> (fst <$> drop 1 (calls r.2))
    = [BufferBody (JSONBytes (JObject
         [("description", JString "nightly"); ("tags", JNull)]))] /\
  (fun it => (Description it, Tags it)) <$> items r.2 !! 1%positive
    = Some ("nightly", None).
Proof.
  intros σ r.
  destruct (Update_exchange (answering ok) σ 1%positive
              {| Id := "abc"; Name := "Suite A"; Description := ""; Parent := None;
                 Parameters := None; Retry := false; StartTime := zero_Time;
                 Tags := None; Type_ := TestItemSuite;
                 client := Some 1%positive; launch := Some 1%positive |}
              1%positive demo_client "nightly" None
              {| StatusCode := 200; Status := "200 OK";
                 RespBody := Unreadable (External "EOF") |} None)
    as (Hcalls & Hout & Hitems); try reflexivity.
  split; [exact Hout|]. subst r. split.
  - rewrite Hcalls. reflexivity.
  - rewrite Hitems. reflexivity.
Defined.

(** X13: the result of [Log] with a response in hand.  For a valid receiver,
    a log URL that parses and, when there is an attachment, a reader that
    reads to its end, [Log] returns the transport error wrapped if there is
    one, else nil exactly when the status code is 201, else an error carrying
    the status text; the level and the message are not checked. *)
Theorem Log_result E σ l self cl c message level attachment resp err :
  items σ !! l = Some self ->
  client self = Some cl -> clients σ !! cl = Some c ->
  url_Parse E (Endpoint c +:+ "/" +:+ Project c +:+ "/log") = None ->
  (forall a, attachment = Some a ->
     exists data, Data a = Some {| reader_data := data; reader_err := None |}) ->
  (forall req token, doRequest_returns E req token = (Some resp, err)) ->
  (Log E (Some l) message level attachment σ).1 = Returned
    match err with
    | Some e =>
        Some (Wrapf e "failed to execute POST request %s"
                [ArgURL (Endpoint c +:+ "/" +:+ Project c +:+ "/log")])
    | None =>
        if StatusCode resp =? 201 then None
        else Some (Errorf "failed with status %s" [ArgString (Status resp)])
    end.
Proof.
  intros Hl Hcl Hc Hparse Hdata Hdo.
  destruct attachment as [a|].
  - destruct (Hdata a eq_refl) as [data Ha].
    unfold Log, getReqForLogWithAttach. unfold_lib. rewrite Ha.
    run_M; rewrite ?Hdo in *; run_M; try done.
    all: by destruct (StatusCode _ =? _).
  - unfold Log, getReqForLog. unfold_lib.
    run_M; rewrite ?Hdo in *; run_M; try done.
    all: by destruct (StatusCode _ =? _).
Qed.

Lemma Log_result_witness :
  let σ := (new_suite demo_store).2 in
  (Log (answering ok) (Some 1%positive) "boom" "no-such-level" (Some screenshot) σ).1
  = Returned (Some (Errorf "failed with status %s" [ArgString "200 OK"])).
Proof.
  intros σ.
  apply (Log_result (answering ok) σ 1%positive
           {| Id := ""; Name := "Suite A"; Description := ""; Parent := None;
              Parameters := None; Retry := false; StartTime := zero_Time;
              Tags := None; Type_ := TestItemSuite;
              client := Some 1%positive; launch := Some 1%positive |}
           1%positive demo_client "boom" "no-such-level" (Some screenshot)
           {| StatusCode := 200; Status := "200 OK";
              RespBody := Unreadable (External "EOF") |} None); try reflexivity.
  intros a [= <-]. eexists. reflexivity.
Defined.

(** ** The read-only client *)

(** X14: [CheckConnect] with a response in hand.  For a valid client and a
    URL that parses, [CheckConnect] sends one GET to [{endpoint}/user], with
    no body and no header of its own, under the client's token.  It returns
    the transport error wrapped if there is one, else nil exactly when the
    status code is 200. *)
Theorem CheckConnect_exchange E σ cl c resp err :
  clients σ !! cl = Some c ->
  url_Parse E (Endpoint c +:+ "/user") = None ->
  (forall req token, doRequest_returns E req token = (Some resp, err)) ->
  calls (CheckConnect E (Some cl) σ).2 = (calls σ ++
    [({| Method := MethodGet; URL := Endpoint c +:+ "/user";
         Header := ∅; Body := NoBody |}, Token c)])%list /\
  (CheckConnect E (Some cl) σ).1 = Returned
    match err with
    | Some e =>
        Some (Wrapf e "failed to execute GET request %s" [ArgURL (Endpoint c +:+ "/user")])
    | None =>
        if StatusCode resp =? 200 then None
        else Some (Errorf "failed with status %s" [ArgString (Status resp)])
    end.
Proof.
  intros Hc Hparse Hdo. unfold CheckConnect. unfold_lib.
  run_M; rewrite ?Hdo in *; run_M; try done.
  all: split; [done|]; by destruct (StatusCode _ =? _).
Qed.

Lemma CheckConnect_exchange_witness :
  calls (CheckConnect (answering ok) (Some 1%positive) demo_store).2
    = [({| Method := "GET"; URL := "https://rp.example.com/api/v1/user";
           Header := ∅; Body := NoBody |}, "tok")] /\
  (CheckConnect (answering ok) (Some 1%positive) demo_store).1 = Returned None.
Proof.
  apply (CheckConnect_exchange (answering ok) demo_store 1%positive demo_client
           {| StatusCode := 200; Status := "200 OK";
              RespBody := Unreadable (External "EOF") |} None); reflexivity.
Defined.

(** X15: [GetDashboard] with a response in hand.  For a valid client and a
    URL that parses, [GetDashboard] sends one GET to
    [{endpoint}/{project}/dashboard] under the client's token.  It returns
    the decoded dashboards with a nil error exactly when there is no
    transport error, the status code is 200 and the body decodes; in every
    other case it returns a nil dashboard with the error. *)
Theorem GetDashboard_exchange E decode σ cl c resp err :
  clients σ !! cl = Some c ->
  url_Parse E (Endpoint c +:+ "/" +:+ Project c +:+ "/dashboard") = None ->
  (forall req token, doRequest_returns E req token = (Some resp, err)) ->
  calls (GetDashboard E decode (Some cl) σ).2 = (calls σ ++
    [({| Method := MethodGet;
         URL := Endpoint c +:+ "/" +:+ Project c +:+ "/dashboard";
         Header := {[ "Content-Type" := ["application/json"] ]};
         Body := NoBody |}, Token c)])%list /\
  (GetDashboard E decode (Some cl) σ).1 = Returned
    match err with
    | Some e =>
        (None, Some (Wrapf e "failed to execute GET request for %s"
                       [ArgString (Endpoint c +:+ "/" +:+ Project c +:+ "/dashboard")]))
    | None =>
        if StatusCode resp =? 200 then
          match (decode (RespBody resp)).2 with
          | Some e => (None, Some (Wrapf e "failed to decode response for dashboard" []))
          | None => ((decode (RespBody resp)).1, None)
          end
        else (None, Some (Errorf "failed with status %s" [ArgString (Status resp)]))
    end.
Proof.
  intros Hc Hparse Hdo. unfold GetDashboard. unfold_lib.
  run_M; rewrite ?Hdo in *; run_M; try done.
  all: split; [done|]; destruct (StatusCode _ =? _); simplify_eq/=; try done.
  all: by repeat (case_match; simplify_eq/=).
Qed.

Lemma GetDashboard_exchange_witness :
  let decode := fun _ : ResponseBody => (Some (Some []), None) : option Dashboard * option error in
  (GetDashboard (answering ok) decode (Some 1%positive) demo_store).1
    = Returned (Some (Some []), None) /\
  URL <$> (fst <$> calls (GetDashboard (answering ok) decode (Some 1%positive) demo_store).2)
    = ["https://rp.example.com/api/v1/demo/dashboard"].
Proof.
  intros decode.
  destruct (GetDashboard_exchange (answering ok) decode demo_store 1%positive demo_client
              {| StatusCode := 200; Status := "200 OK";
                 RespBody := Unreadable (External "EOF") |} None)
    as [Hcalls Hout]; try reflexivity.
  split; [exact Hout | rewrite Hcalls; reflexivity].
Defined.

(** X16: [GetDashboard] never hands back a dashboard together with an error:
    whenever the error it returns is not nil, the dashboard pointer is nil,
    whatever the decoder had filled in before failing. *)
Theorem GetDashboard_error_has_no_dashboard E decode cp σ d e :
  (GetDashboard E decode cp σ).1 = Returned (d, Some e) -> d = None.
Proof.
  unfold GetDashboard. unfold_lib. run_M; try done; by intros [= <- _].
Qed.

Lemma GetDashboard_error_has_no_dashboard_witness :
  let partial : Dashboard := Some [] in
  let decode := fun _ : ResponseBody =>
    (Some partial, Some (External "json: cannot unmarshal string into Go value"))
      : option Dashboard * option error in
  (GetDashboard (answering ok) decode (Some 1%positive) demo_store).1
    = Returned (None,
                Some (Wrapf (External "json: cannot unmarshal string into Go value")
                        "failed to decode response for dashboard" [])) /\
  (None : option Dashboard) = None.
Proof.
  intros partial decode. split; [reflexivity|].
  exact (GetDashboard_error_has_no_dashboard (answering ok) decode (Some 1%positive)
           demo_store None
           (Wrapf (External "json: cannot unmarshal string into Go value")
              "failed to decode response for dashboard" []) eq_refl).
Defined.

(** ** Failures before anything is sent *)

(** X17: when [http.NewRequest] cannot parse the URL an operation has
    built, the operation returns the parser's error wrapped together with
    that URL and the state is exactly as before: [doRequest] is not called
    and nothing is written.  This holds for [Start], [Finish], [Log] (with
    or without a readable attachment) and [Update] on a valid receiver, and
    for [CheckConnect] and [GetDashboard] on its client. *)
Theorem unparseable_URL_sends_nothing E σ l self cl c err :
  items σ !! l = Some self ->
  client self = Some cl -> clients σ !! cl = Some c ->
  (forall ll la url,
     launch self = Some ll -> launches σ !! ll = Some la ->
     match Parent self with
     | None => url = Endpoint c +:+ "/" +:+ Project c +:+ "/item"
     | Some p =>
         exists parent, items σ !! p = Some parent /\
           url = Endpoint c +:+ "/" +:+ Project c +:+ "/item/" +:+ Id parent
     end ->
     url_Parse E url = Some err ->
     Start E (Some l) σ
     = (Returned (Some (Wrapf err "failed to create POST request to %s" [ArgString url])), σ)) /\
  (forall status,
     url_Parse E (Endpoint c +:+ "/" +:+ Project c +:+ "/item/" +:+ Id self) = Some err ->
     Finish E (Some l) status σ
     = (Returned (Some (Wrapf err "failed to create PUT request to %s"
                          [ArgString (Endpoint c +:+ "/" +:+ Project c +:+ "/item/" +:+ Id self)])),
        σ)) /\
  (forall message level attachment,
     (forall a, attachment = Some a ->
        exists data, Data a = Some {| reader_data := data; reader_err := None |}) ->
     url_Parse E (Endpoint c +:+ "/" +:+ Project c +:+ "/log") = Some err ->
     Log E (Some l) message level attachment σ
     = (Returned (Some (Wrapf err "failed to create POST request to %s"
                          [ArgString (Endpoint c +:+ "/" +:+ Project c +:+ "/log")])),
        σ)) /\
  (forall description tags,
     url_Parse E (Endpoint c +:+ "/" +:+ Project c +:+ "/item/" +:+ Id self +:+ "/update")
       = Some err ->
     Update E (Some l) description tags σ
     = (Returned (Some (Wrapf err "failed to create PUT request to %s"
                          [ArgString (Endpoint c +:+ "/" +:+ Project c +:+ "/item/"
                                      +:+ Id self +:+ "/update")])),
        σ)) /\
  (url_Parse E (Endpoint c +:+ "/user") = Some err ->
   CheckConnect E (Some cl) σ
   = (Returned (Some (Wrapf err "can't create a new request for %s"
                        [ArgString (Endpoint c +:+ "/user")])),
      σ)) /\
  (forall decode,
     url_Parse E (Endpoint c +:+ "/" +:+ Project c +:+ "/dashboard") = Some err ->
     GetDashboard E decode (Some cl) σ
     = (Returned (None,
                  Some (Wrapf err "can't create request for %s"
                          [ArgString (Endpoint c +:+ "/" +:+ Project c +:+ "/dashboard")])),
        σ)).
Proof.
  intros Hl Hcl Hc.
  clauses; intros.
  - unfold Start. unfold_lib. destruct (Parent self) as [p|] eqn:Hp.
    + destruct H1 as (parent & Hparent & ->). run_M; done.
    + subst url. run_M; done.
  - unfold Finish. unfold_lib. run_M; done.
  - destruct attachment as [a|].
    + destruct (H a eq_refl) as [data Ha].
      unfold Log, getReqForLogWithAttach. unfold_lib. rewrite Ha. run_M; done.
    + unfold Log, getReqForLog. unfold_lib. run_M; done.
  - unfold Update. unfold_lib. run_M; done.
  - unfold CheckConnect. unfold_lib. run_M; done.
  - unfold GetDashboard. unfold_lib. run_M; done.
Qed.

Lemma unparseable_URL_sends_nothing_witness :
  let rejected := External "net/url: invalid control character in URL" in
  let newline := String (Ascii.ascii_of_nat 10) "" in
  let E := {| time_Now := demo_now;
              url_Parse := fun u => if strings.Contains u newline then Some rejected else None;
              randomBoundary := "5f2a9c1e07b3";
              doRequest_returns := fun _ _ => ok |} in
  let σ := ((suite ← new_suite;
             Start (answering (created (JObject [("id", JString ("a" +:+ newline +:+ "b"))])))
               suite) demo_store).2 in
  Finish E (Some 1%positive) "PASSED" σ
  = (Returned (Some (Wrapf rejected "failed to create PUT request to %s"
                       [ArgString ("https://rp.example.com/api/v1/demo/item/a"
                                   +:+ newline +:+ "b")])), σ).
Proof.
  intros rejected newline E σ.
  refine (proj1 (proj2 (unparseable_URL_sends_nothing E σ 1%positive
            {| Id := "a" +:+ newline +:+ "b"; Name := "Suite A"; Description := "";
               Parent := None; Parameters := None; Retry := false;
               StartTime := zero_Time; Tags := None; Type_ := TestItemSuite;
               client := Some 1%positive; launch := Some 1%positive |}
            1%positive demo_client rejected _ _ _)) "PASSED" _); reflexivity.
Defined.

(** X18: an attachment that cannot be read stops [Log] before anything is
    sent.  For a valid receiver: if the reader fails, [Log] returns that
    error wrapped as "failed to copy file writer"; if the attachment has no
    reader at all, [Log] panics; in both cases [doRequest] is not called,
    whether or not the URL would have parsed. *)
Theorem Log_attachment_read_failure E σ l self cl c message level a :
  items σ !! l = Some self ->
  client self = Some cl -> clients σ !! cl = Some c ->
  match Data a with
  | None =>
      Log E (Some l) message level (Some a) σ = (Panicked, σ)
  | Some r =>
      forall e, reader_err r = Some e ->
        Log E (Some l) message level (Some a) σ
          = (Returned (Some (Wrapf e "failed to copy file writer" [])), σ)
  end.
Proof.
  intros Hl Hcl Hc. unfold Log, getReqForLogWithAttach. unfold_lib.
  destruct (Data a) as [r|]; [intros e He|]; run_M; done.
Qed.

Lemma Log_attachment_read_failure_witness :
  let σ := (new_suite demo_store).2 in
  let no_reader := {| Attachment_Name := "shot.png"; Data := None; MimeType := "image/png" |} in
  Log (answering (created JNull)) (Some 1%positive) "boom" "error" (Some no_reader) σ
    = (Panicked, σ).
Proof.
  intros σ no_reader.
  apply (Log_attachment_read_failure (answering (created JNull)) σ 1%positive
           {| Id := ""; Name := "Suite A"; Description := ""; Parent := None;
              Parameters := None; Retry := false; StartTime := zero_Time;
              Tags := None; Type_ := TestItemSuite;
              client := Some 1%positive; launch := Some 1%positive |}
           1%positive demo_client "boom" "error" no_reader); reflexivity.
Defined.

(** ** Operations in sequence *)

Lemma Start_keeps_launches_clients E ti σ :
  launches (Start E ti σ).2 = launches σ /\ clients (Start E ti σ).2 = clients σ.
Proof. unfold Start. unfold_lib. run_M; done. Qed.

Lemma Finish_sends E σ l self cl c status :
  items σ !! l = Some self ->
  client self = Some cl -> clients σ !! cl = Some c ->
  url_Parse E (Endpoint c +:+ "/" +:+ Project c +:+ "/item/" +:+ Id self) = None ->
  exists req,
    calls (Finish E (Some l) status σ).2 = (calls σ ++ [(req, Token c)])%list /\
    Method req = MethodPut /\
    URL req = Endpoint c +:+ "/" +:+ Project c +:+ "/item/" +:+ Id self.
Proof.
  intros Hl Hcl Hc Hparse. unfold Finish. unfold_lib.
  run_M; by eexists.
Qed.

Lemma Update_sends E σ l self cl c description tags :
  items σ !! l = Some self ->
  client self = Some cl -> clients σ !! cl = Some c ->
  url_Parse E (Endpoint c +:+ "/" +:+ Project c +:+ "/item/" +:+ Id self +:+ "/update") = None ->
  exists req,
    calls (Update E (Some l) description tags σ).2 = (calls σ ++ [(req, Token c)])%list /\
    Method req = MethodPut /\
    URL req = Endpoint c +:+ "/" +:+ Project c +:+ "/item/" +:+ Id self +:+ "/update".
Proof.
  intros Hl Hcl Hc Hparse. unfold Update. unfold_lib.
  run_M; by eexists.
Qed.

Lemma Log_plain_sends E σ l self cl c message level :
  items σ !! l = Some self ->
  client self = Some cl -> clients σ !! cl = Some c ->
  url_Parse E (Endpoint c +:+ "/" +:+ Project c +:+ "/log") = None ->
  exists req,
    calls (Log E (Some l) message level None σ).2 = (calls σ ++ [(req, Token c)])%list /\
    Body req = BufferBody (JSONBytes (JObject
      [("item_id", JString (coerce_utf8 (Id self))); ("message", JString (coerce_utf8 message));
       ("level", JString (coerce_utf8 level)); ("time", JNumber (toTimestamp (time_Now E)))])).
Proof.
  intros Hl Hcl Hc Hparse. unfold Log, getReqForLog. unfold_lib.
  run_M; by eexists.
Qed.

(** X19: the hierarchy is built through the parent pointer.  Take a root
    item and a child whose [Parent] points to it, both with valid client and
    launch, and all URLs parsing.  Once [Start] on the root has stored the
    id decoded from a 201 answer, [Start] on the child posts to
    [{endpoint}/{project}/item/{that id}], although the child was created
    before the root had an id. *)
Theorem child_targets_started_parent
    E1 E2 σ lp root clp cp llp lap lc child clc cc llc lac resp id :
  items σ !! lp = Some root -> Parent root = None ->
  client root = Some clp -> clients σ !! clp = Some cp ->
  launch root = Some llp -> launches σ !! llp = Some lap ->
  items σ !! lc = Some child -> Parent child = Some lp -> lp <> lc ->
  client child = Some clc -> clients σ !! clc = Some cc ->
  launch child = Some llc -> launches σ !! llc = Some lac ->
  (forall u, url_Parse E1 u = None) -> (forall u, url_Parse E2 u = None) ->
  (forall req token, doRequest_returns E1 req token = (Some resp, None)) ->
  StatusCode resp = 201 ->
  Decode_id (RespBody resp) "" = (id, None) ->
  (Start E1 (Some lp) σ).1 = Returned None /\
  exists req,
    calls (Start E2 (Some lc) (Start E1 (Some lp) σ).2).2
      = (calls (Start E1 (Some lp) σ).2 ++ [(req, Token cc)])%list /\
    URL req = Endpoint cc +:+ "/" +:+ Project cc +:+ "/item/" +:+ id.
Proof.
  intros Hroot Hproot Hclp Hcp Hllp Hlap Hchild Hpchild Hne Hclc Hcc Hllc Hlac
    Hparse1 Hparse2 Hdo Hstatus Hdec.
  pose proof (Start_response_present E1 σ lp root clp cp llp lap
                (Endpoint cp +:+ "/" +:+ Project cp +:+ "/item") resp None
                Hroot Hclp Hcp Hllp Hlap) as H1.
  rewrite Hproot in H1. specialize (H1 eq_refl (Hparse1 _) Hdo).
  rewrite Hdec in H1. rewrite decide_True in H1 by done.
  destruct H1 as [Hret Hitems]. split; [done|].
  destruct (Start_keeps_launches_clients E1 (Some lp) σ) as [Hlaunches Hclients].
  set (σ1 := (Start E1 (Some lp) σ).2) in *. simpl in Hitems.
  eexists. split.
  - eapply (Start_sends E2 σ1 lc child clc cc llc lac
              (Endpoint cc +:+ "/" +:+ Project cc +:+ "/item/" +:+ id)); try done.
    + rewrite Hitems. by rewrite lookup_insert_ne.
    + by rewrite Hclients.
    + by rewrite Hlaunches.
    + rewrite Hpchild. exists (set_Id id root). split; [|done].
      rewrite Hitems. by rewrite lookup_insert_eq.
  - done.
Qed.

Lemma child_targets_started_parent_witness :
  let E1 := answering (created (JObject [("id", JString "abc")])) in
  let E2 := answering (created (JObject [("id", JString "t-1")])) in
  let σ := ((suite ← new_suite; new_test suite) demo_store).2 in
  (Start E1 (Some 1%positive) σ).1 = Returned None /\
  exists req,
    calls (Start E2 (Some 2%positive) (Start E1 (Some 1%positive) σ).2).2
      = (calls (Start E1 (Some 1%positive) σ).2 ++ [(req, "tok")])%list /\
    URL req = "https://rp.example.com/api/v1/demo/item/abc".
Proof.
  intros E1 E2 σ.
  apply (child_targets_started_parent E1 E2 σ
           1%positive
           {| Id := ""; Name := "Suite A"; Description := ""; Parent := None;
              Parameters := None; Retry := false; StartTime := zero_Time;
              Tags := None; Type_ := TestItemSuite;
              client := Some 1%positive; launch := Some 1%positive |}
           1%positive demo_client 1%positive demo_launch
           2%positive
           {| Id := ""; Name := "Test 1"; Description := ""; Parent := Some 1%positive;
              Parameters := None; Retry := false; StartTime := zero_Time;
              Tags := None; Type_ := TestItemTest;
              client := Some 1%positive; launch := Some 1%positive |}
           1%positive demo_client 1%positive demo_launch
           {| StatusCode := 201; Status := "201 Created";
              RespBody := Document (JObject [("id", JString "abc")]) |} "abc");
    try reflexivity.
  discriminate.
Defined.

(** X20: the id assigned by [Start] is the one the later calls use.  For a
    valid item and URLs that parse, once [Start] has stored the id decoded
    from a 201 answer, [Finish] puts to [{endpoint}/{project}/item/{id}],
    [Update] puts to [{endpoint}/{project}/item/{id}/update] and [Log]
    sends that id as [item_id]. *)
Theorem started_id_is_used E1 E σ l self cl c ll la url resp id :
  items σ !! l = Some self ->
  client self = Some cl -> clients σ !! cl = Some c ->
  launch self = Some ll -> launches σ !! ll = Some la ->
  match Parent self with
  | None => url = Endpoint c +:+ "/" +:+ Project c +:+ "/item"
  | Some p =>
      exists parent, items σ !! p = Some parent /\
        url = Endpoint c +:+ "/" +:+ Project c +:+ "/item/" +:+ Id parent
  end ->
  url_Parse E1 url = None -> (forall u, url_Parse E u = None) ->
  (forall req token, doRequest_returns E1 req token = (Some resp, None)) ->
  StatusCode resp = 201 ->
  Decode_id (RespBody resp) "" = (id, None) ->
  (forall status, exists req,
     calls (Finish E (Some l) status (Start E1 (Some l) σ).2).2
       = (calls (Start E1 (Some l) σ).2 ++ [(req, Token c)])%list /\
     Method req = MethodPut /\
     URL req = Endpoint c +:+ "/" +:+ Project c +:+ "/item/" +:+ id) /\
  (forall description tags, exists req,
     calls (Update E (Some l) description tags (Start E1 (Some l) σ).2).2
       = (calls (Start E1 (Some l) σ).2 ++ [(req, Token c)])%list /\
     Method req = MethodPut /\
     URL req = Endpoint c +:+ "/" +:+ Project c +:+ "/item/" +:+ id +:+ "/update") /\
  (forall message level, exists req,
     calls (Log E (Some l) message level None (Start E1 (Some l) σ).2).2
       = (calls (Start E1 (Some l) σ).2 ++ [(req, Token c)])%list /\
     Body req = BufferBody (JSONBytes (JObject
       [("item_id", JString (coerce_utf8 id)); ("message", JString (coerce_utf8 message));
        ("level", JString (coerce_utf8 level)); ("time", JNumber (toTimestamp (time_Now E)))]))).
Proof.
  intros Hl Hcl Hc Hll Hla Hurl Hparse1 Hparse Hdo Hstatus Hdec.
  pose proof (Start_response_present E1 σ l self cl c ll la url resp None
                Hl Hcl Hc Hll Hla Hurl Hparse1 Hdo) as H1.
  rewrite Hdec in H1. rewrite decide_True in H1 by done.
  destruct H1 as [_ Hitems].
  destruct (Start_keeps_launches_clients E1 (Some l) σ) as [_ Hclients].
  set (σ1 := (Start E1 (Some l) σ).2) in *. simpl in Hitems.
  assert (items σ1 !! l = Some (set_Id id self)) as Hl1
    by (rewrite Hitems; apply lookup_insert_eq).
  assert (clients σ1 !! cl = Some c) as Hc1 by (by rewrite Hclients).
  split; [|split]; intros.
  - apply (Finish_sends E σ1 l (set_Id id self) cl c status Hl1 Hcl Hc1 (Hparse _)).
  - apply (Update_sends E σ1 l (set_Id id self) cl c description tags Hl1 Hcl Hc1 (Hparse _)).
  - apply (Log_plain_sends E σ1 l (set_Id id self) cl c message level Hl1 Hcl Hc1 (Hparse _)).
Qed.

Lemma started_id_is_used_witness :
  let E1 := answering (created (JObject [("id", JString "abc")])) in
  let σ := (new_suite demo_store).2 in
  exists req,
    calls (Finish (answering ok) (Some 1%positive) "PASSED" (Start E1 (Some 1%positive) σ).2).2
      = (calls (Start E1 (Some 1%positive) σ).2 ++ [(req, "tok")])%list /\
    Method req = "PUT" /\
    URL req = "https://rp.example.com/api/v1/demo/item/abc".
Proof.
  intros E1 σ.
  refine (proj1 (started_id_is_used E1 (answering ok) σ 1%positive
           {| Id := ""; Name := "Suite A"; Description := ""; Parent := None;
              Parameters := None; Retry := false; StartTime := zero_Time;
              Tags := None; Type_ := TestItemSuite;
              client := Some 1%positive; launch := Some 1%positive |}
           1%positive demo_client 1%positive demo_launch
           "https://rp.example.com/api/v1/demo/item"
           {| StatusCode := 201; Status := "201 Created";
              RespBody := Document (JObject [("id", JString "abc")]) |} "abc"
           _ _ _ _ _ _ _ _ _ _ _) "PASSED"); reflexivity.
Defined.

(** ** Creating items *)

Lemma NewTestItem_valid_launch σ ll la name description itemType tags parent :
  launches σ !! ll = Some la ->
  NewTestItem (Some ll) name description itemType tags parent σ
  = (Returned (Some (fresh (dom (items σ)))),
     {| items := <[fresh (dom (items σ)) :=
                    {| Id := ""; Name := name; Description := description;
                       Parent := parent; Parameters := None; Retry := false;
                       StartTime := zero_Time; Tags := tags; Type_ := itemType;
                       client := Launch_client la; launch := Some ll |}]> (items σ);
        launches := launches σ; clients := clients σ; calls := calls σ |}).
Proof. intros Hla. unfold NewTestItem. run_M. done. Qed.

(** X21: [NewTestItem] never overwrites an item.  On a valid launch it
    returns a location that held no item, the store gains exactly the new
    item there (empty id, the given name, description, type, tags and
    parent, the launch and the launch's client) and nothing is sent; the
    parent pointer is stored unchecked.  On a nil launch it panics and the
    store is as before. *)
Theorem NewTestItem_allocates σ ll la name description itemType tags parent :
  launches σ !! ll = Some la ->
  (exists l,
     (NewTestItem (Some ll) name description itemType tags parent σ).1 = Returned (Some l) /\
     items σ !! l = None /\
     items (NewTestItem (Some ll) name description itemType tags parent σ).2
       = <[l := {| Id := ""; Name := name; Description := description;
                   Parent := parent; Parameters := None; Retry := false;
                   StartTime := zero_Time; Tags := tags; Type_ := itemType;
                   client := Launch_client la; launch := Some ll |}]> (items σ) /\
     (forall l' it, items σ !! l' = Some it ->
        items (NewTestItem (Some ll) name description itemType tags parent σ).2 !! l'
          = Some it) /\
     calls (NewTestItem (Some ll) name description itemType tags parent σ).2 = calls σ) /\
  NewTestItem None name description itemType tags parent σ = (Panicked, σ).
Proof.
  intros Hla. split; [|done].
  rewrite (NewTestItem_valid_launch σ ll la) by done. simpl.
  assert (items σ !! fresh (dom (items σ)) = None) as Hfresh
    by apply not_elem_of_dom, is_fresh.
  eexists. repeat split; try done.
  intros l' it Hl'. rewrite lookup_insert_ne; [done|]. congruence.
Qed.

Lemma NewTestItem_allocates_witness :
  let σ := (new_suite demo_store).2 in
  exists l,
    (new_test (Some 1%positive) σ).1 = Returned (Some l) /\
    items σ !! l = None /\
    Name <$> items (new_test (Some 1%positive) σ).2 !! 1%positive = Some "Suite A".
Proof.
  intros σ.
  destruct (proj1 (NewTestItem_allocates σ 1%positive demo_launch
                     "Test 1" "" TestItemTest None (Some 1%positive) eq_refl))
    as (l & Hret & Hfresh & _ & Hold & _).
  exists l. split; [exact Hret|]. split; [exact Hfresh|].
  unfold new_test. rewrite (Hold 1%positive
    {| Id := ""; Name := "Suite A"; Description := ""; Parent := None;
       Parameters := None; Retry := false; StartTime := zero_Time;
       Tags := None; Type_ := TestItemSuite;
       client := Some 1%positive; launch := Some 1%positive |} eq_refl).
  reflexivity.
Defined.

(** X22: what a new item announces.  An item created by [NewTestItem] on a
    valid launch with a valid client and started at once sends one POST
    whose body is built from the constructor's arguments and the launch:
    [name], [description], [tags] (a nil slice as [null], an empty one as
    [[]]), [start_time], [launch_id] (the launch's id at that moment),
    [type], and [parameters], which is always [null].  Every string is
    carried as [json.Marshal] writes it: coerced to valid UTF-8, each
    ill-formed byte replaced by U+FFFD. *)
Theorem new_item_Start_request E σ ll la cl c name description itemType tags parent url :
  launches σ !! ll = Some la ->
  Launch_client la = Some cl -> clients σ !! cl = Some c ->
  match parent with
  | None => url = Endpoint c +:+ "/" +:+ Project c +:+ "/item"
  | Some p =>
      exists par, items σ !! p = Some par /\
        url = Endpoint c +:+ "/" +:+ Project c +:+ "/item/" +:+ Id par
  end ->
  url_Parse E url = None ->
  calls ((ti ← NewTestItem (Some ll) name description itemType tags parent; Start E ti) σ).2
  = (calls σ ++
    [({| Method := MethodPost; URL := url;
         Header := {[ "Content-Type" := ["application/json"] ]};
         Body := BufferBody (JSONBytes (JObject
           [("name", JString (coerce_utf8 name));
            ("description", JString (coerce_utf8 description));
            ("tags", match tags with
                     | None => JNull
                     | Some ts => JArray (marshal_string <$> ts)
                     end);
            ("start_time", JNumber (toTimestamp (time_Now E)));
            ("launch_id", JString (coerce_utf8 (Launch_Id la)));
            ("type", JString (coerce_utf8 itemType));
            ("parameters", JNull)])) |}, Token c)])%list.
Proof.
  intros Hla Hcl Hc Hurl Hparse.
  unfold mbind at 1. unfold M_bind.
  rewrite (NewTestItem_valid_launch σ ll la) by done.
  set (l := fresh (dom (items σ))).
  assert (items σ !! l = None) as Hfresh by apply not_elem_of_dom, is_fresh.
  match goal with |- calls (Start E (Some l) ?s).2 = _ => set (σ1 := s) end.
  change (calls σ) with (calls σ1).
  refine (Start_sends E σ1 l
            {| Id := ""; Name := name; Description := description;
               Parent := parent; Parameters := None; Retry := false;
               StartTime := zero_Time; Tags := tags; Type_ := itemType;
               client := Launch_client la; launch := Some ll |}
            cl c ll la url _ Hcl Hc eq_refl Hla _ Hparse).
  - apply lookup_insert_eq.
  - simpl. destruct parent as [p|]; [|done].
    destruct Hurl as (par & Hpar & ->). exists par. split; [|done].
    rewrite lookup_insert_ne; [done|congruence].
Qed.

Lemma new_item_Start_request_witness :
  let E := answering (created (JObject [("id", JString "abc")])) in
  Body <$> (fst <$> calls ((ti ← NewTestItem (Some 1%positive) "Suite A" "first run"
                                   TestItemSuite (Some []) None;
                            Start E ti) demo_store).2)
  = [BufferBody (JSONBytes (JObject
       [("name", JString "Suite A"); ("description", JString "first run");
        ("tags", JArray []); ("start_time", JNumber 1700000000123);
        ("launch_id", JString "L1"); ("type", JString "SUITE");
        ("parameters", JNull)]))].
Proof.
  intros E.
  rewrite (new_item_Start_request E demo_store 1%positive demo_launch 1%positive demo_client
             "Suite A" "first run" TestItemSuite (Some []) None
             "https://rp.example.com/api/v1/demo/item"); reflexivity.
Defined.

(** A name that is not valid UTF-8 reaches the server with the ill-formed
    byte replaced. *)
Example new_item_ill_formed_name :
  let E := answering (created (JObject [("id", JString "abc")])) in
  let name := "a" +:+ String (Ascii.ascii_of_nat 255) "" +:+ "b" in
  hd_error (Body <$> (fst <$> calls ((ti ← NewTestItem (Some 1%positive) name ""
                                             TestItemSuite None None;
                                      Start E ti) demo_store).2))
  = Some (BufferBody (JSONBytes (JObject
       [("name", JString ("a" +:+ replacement_rune +:+ "b")); ("description", JString "");
        ("tags", JNull); ("start_time", JNumber 1700000000123);
        ("launch_id", JString "L1"); ("type", JString "SUITE");
        ("parameters", JNull)]))).
Proof. vm_compute. done. Qed.

(** ** When an operation panics *)

(** X23: a well-formed call panics exactly when [doRequest] hands back no
    response.  For a receiver whose client, launch and parent pointers are
    valid, URLs that parse and an attachment (if any) that reads to its end,
    each of [Start], [Finish], [Log] and [Update] panics if and only if the
    response returned by [doRequest] is nil, whatever the error returned
    with it; likewise [CheckConnect] and [GetDashboard] on a valid client. *)
Theorem panic_iff_no_response E σ l self cl c ll la answer :
  items σ !! l = Some self ->
  client self = Some cl -> clients σ !! cl = Some c ->
  launch self = Some ll -> launches σ !! ll = Some la ->
  match Parent self with
  | None => True
  | Some p => is_Some (items σ !! p)
  end ->
  (forall u, url_Parse E u = None) ->
  (forall req token, doRequest_returns E req token = answer) ->
  ((Start E (Some l) σ).1 = Panicked <-> answer.1 = None) /\
  (forall status, (Finish E (Some l) status σ).1 = Panicked <-> answer.1 = None) /\
  (forall message level attachment,
     (forall a, attachment = Some a ->
        exists data, Data a = Some {| reader_data := data; reader_err := None |}) ->
     ((Log E (Some l) message level attachment σ).1 = Panicked <-> answer.1 = None)) /\
  (forall description tags,
     (Update E (Some l) description tags σ).1 = Panicked <-> answer.1 = None) /\
  ((CheckConnect E (Some cl) σ).1 = Panicked <-> answer.1 = None) /\
  (forall decode, (GetDashboard E decode (Some cl) σ).1 = Panicked <-> answer.1 = None).
Proof.
  intros Hl Hcl Hc Hll Hla Hparent Hparse Hdo.
  assert (forall u e, url_Parse E u = Some e -> False) as Hno
    by (intros u e H; by rewrite Hparse in H).
  destruct answer as [[resp|] err]; simpl.
  - clauses; intros.
    + unfold Start. unfold_lib. destruct (Parent self) as [p|] eqn:Hp.
      * destruct Hparent as [parent Hparent].
        run_M; rewrite ?Hdo in *; run_M; try done; by (exfalso; eauto).
      * run_M; rewrite ?Hdo in *; run_M; try done; by (exfalso; eauto).
    + unfold Finish. unfold_lib.
      run_M; rewrite ?Hdo in *; run_M; try done; by (exfalso; eauto).
    + destruct attachment as [a|].
      * destruct (H a eq_refl) as [data Ha].
        unfold Log, getReqForLogWithAttach. unfold_lib. rewrite Ha.
        run_M; rewrite ?Hdo in *; run_M; try done; by (exfalso; eauto).
      * unfold Log, getReqForLog. unfold_lib.
        run_M; rewrite ?Hdo in *; run_M; try done; by (exfalso; eauto).
    + unfold Update. unfold_lib.
      run_M; rewrite ?Hdo in *; run_M; try done; by (exfalso; eauto).
    + unfold CheckConnect. unfold_lib.
      run_M; rewrite ?Hdo in *; run_M; try done; by (exfalso; eauto).
    + unfold GetDashboard. unfold_lib.
      run_M; rewrite ?Hdo in *; run_M; try done; by (exfalso; eauto).
  - clauses; intros.
    + unfold Start. unfold_lib. destruct (Parent self) as [p|] eqn:Hp.
      * destruct Hparent as [parent Hparent].
        run_M; rewrite ?Hdo in *; run_M; try done; by (exfalso; eauto).
      * run_M; rewrite ?Hdo in *; run_M; try done; by (exfalso; eauto).
    + unfold Finish. unfold_lib.
      run_M; rewrite ?Hdo in *; run_M; try done; by (exfalso; eauto).
    + destruct attachment as [a|].
      * destruct (H a eq_refl) as [data Ha].
        unfold Log, getReqForLogWithAttach. unfold_lib. rewrite Ha.
        run_M; rewrite ?Hdo in *; run_M; try done; by (exfalso; eauto).
      * unfold Log, getReqForLog. unfold_lib.
        run_M; rewrite ?Hdo in *; run_M; try done; by (exfalso; eauto).
    + unfold Update. unfold_lib.
      run_M; rewrite ?Hdo in *; run_M; try done; by (exfalso; eauto).
    + unfold CheckConnect. unfold_lib.
      run_M; rewrite ?Hdo in *; run_M; try done; by (exfalso; eauto).
    + unfold GetDashboard. unfold_lib.
      run_M; rewrite ?Hdo in *; run_M; try done; by (exfalso; eauto).
Qed.

Lemma panic_iff_no_response_witness :
  let E := answering (None, None) in
  let σ := (new_suite demo_store).2 in
  (Finish E (Some 1%positive) "PASSED" σ).1 = Panicked.
Proof.
  intros E σ.
  refine (proj2 (proj1 (proj2 (panic_iff_no_response E σ 1%positive
           {| Id := ""; Name := "Suite A"; Description := ""; Parent := None;
              Parameters := None; Retry := false; StartTime := zero_Time;
              Tags := None; Type_ := TestItemSuite;
              client := Some 1%positive; launch := Some 1%positive |}
           1%positive demo_client 1%positive demo_launch (None, None)
           _ _ _ _ _ _ _ _)) "PASSED") _); first [reflexivity | exact I].
Defined.
